(** * BarChart: the view-model builder and the render pass of [src/visual.ts]

    A shallow embedding of [Visual.getViewModel], [Visual.update] and the
    click handler that [update] attaches to the bars, with the properties
    of the written specification stated and settled against it.

    Conventions of the embedding.
    - A JavaScript value that may be [undefined] or [null] has type [js A].
      Reading an array past its end gives [Undefined]; reading a property
      of [Undefined] or [Null] throws a [TypeError].
    - The TypeScript casts [<string>] and [<number>] do nothing at run time;
      the columns are modelled at the types the casts name, so an entry of
      a value column is a number, [null] or [undefined].
    - A JavaScript number is a rational (every finite double is one), an
      infinity or [NaN]; the code only compares numbers and prints them,
      and printing is left to the engine: [Number.prototype.toString] is
      a function the statements quantify over, like the host services.
    - Objects that the code compares by reference (selection identities)
      carry the address they were allocated at; allocation threads a
      counter through the computation.
    - The host (palette, selection-identity builder, selection manager,
      settings parser) is a record of functions that every statement
      quantifies over.  The tooltip handlers and
      [enumerateObjectInstances] are left out. *)

From stdpp Require Import base option list strings gmap numbers.
From Stdlib Require Import ZArith QArith DecimalString.

Close Scope Q_scope.
Local Open Scope string_scope.
Local Open Scope list_scope.

(** ** JavaScript values *)

Inductive js (A : Type) : Type :=
  | Undefined
  | Null
  | Val (a : A).
Arguments Undefined {A}.
Arguments Null {A}.
Arguments Val {A} a.

(** [arr[i]] *)
Definition index {A} (arr : list A) (i : nat) : js A :=
  match arr !! i with Some a => Val a | None => Undefined end.

(** [arr[i]] for an array whose entries may themselves be [null]. *)
Definition index_js {A} (arr : list (js A)) (i : nat) : js A :=
  match arr !! i with Some a => a | None => Undefined end.

Inductive number : Type :=
  | Num (q : Q)
  | Infinity
  | NegInfinity
  | NaN.

(** Truthiness of a number, [null] or [undefined]: zero and [NaN] are
    falsy. *)
Definition truthy (x : js number) : bool :=
  match x with
  | Val (Num q) => negb (Qeq_bool q 0)
  | Val Infinity => true
  | Val NegInfinity => true
  | _ => false
  end.

(** [a > b] and [a >= b] on numbers: false as soon as one side is [NaN]. *)
Definition number_gt (a b : number) : bool :=
  match a with
  | NaN => false
  | Infinity =>
      match b with Num _ => true | NegInfinity => true | _ => false end
  | Num x =>
      match b with
      | Num y => negb (Qle_bool x y)
      | NegInfinity => true
      | _ => false
      end
  | NegInfinity => false
  end.

Definition number_ge (a b : number) : bool :=
  match a with
  | NaN => false
  | Infinity =>
      match b with NaN => false | _ => true end
  | Num x =>
      match b with
      | Num y => Qle_bool y x
      | NegInfinity => true
      | _ => false
      end
  | NegInfinity =>
      match b with NegInfinity => true | _ => false end
  end.

(** ** Exceptions and the computation monad *)

Inductive exn : Type :=
  | TypeError (msg : string).

Inductive result (A : Type) : Type :=
  | Ok (a : A)
  | Throw (e : exn).
Arguments Ok {A} a.
Arguments Throw {A} e.

(** The state is the next free object address. *)
Definition Heap := nat.

Definition M (A : Type) : Type := Heap -> result (A * Heap).

Definition ret {A} (a : A) : M A := fun h => Ok (a, h).

Definition throw {A} (e : exn) : M A := fun _ => Throw e.

Definition bind {A B} (m : M A) (k : A -> M B) : M B :=
  fun h => match m h with
           | Ok (a, h') => k a h'
           | Throw e => Throw e
           end.

(** [new]: the address of a freshly allocated object. *)
Definition alloc : M nat := fun h => Ok (h, S h).

Declare Scope js_scope.
Delimit Scope js_scope with js.
Notation "x <- m ;; k" := (bind m (fun x => k))
  (at level 100, m at next level, right associativity) : js_scope.
Local Open Scope js_scope.

(** [x.p] for a property [p] read through [get]; on [undefined] and on
    [null] the engine throws, naming the receiver. *)
Definition prop {A B} (what : string) (x : js A) (get : A -> B) : M B :=
  match x with
  | Val a => ret (get a)
  | Null => throw (TypeError ("Cannot read property '" ++ what ++ "' of null"))
  | Undefined =>
      throw (TypeError ("Cannot read property '" ++ what ++ "' of undefined"))
  end.

(** ** The host's data view (powerbi-visuals-api) *)

Record DataViewMetadataColumn := {
  displayName : string
}.

(** [Fill]: [{ solid?: { color?: string } }] *)
Record Fill := {
  solid : js (js string)
}.

(** [DataViewObjects]: object name to property name to value.  The only
    property read here is a fill. *)
Definition DataViewObject := gmap string Fill.
Definition DataViewObjects := gmap string DataViewObject.

Record DataViewCategoryColumn := {
  cat_source : js DataViewMetadataColumn;
  cat_values : list (js string);
  cat_objects : js (list (js DataViewObjects))
}.

Record DataViewValueColumn := {
  col_source : DataViewMetadataColumn;
  col_values : list (js number);
  col_highlights : js (list (js number))
}.

Record DataViewCategorical := {
  categories : js (list DataViewCategoryColumn);
  values : js (list DataViewValueColumn)
}.

Record DataView := {
  categorical : js DataViewCategorical
}.

Record IViewport := {
  width : Z;
  height : Z
}.

Record VisualUpdateOptions := {
  dataViews : js (list DataView);
  viewport : IViewport
}.

(** ** Selection identities *)

(** What [getSelector()] exposes and [equals] compares. *)
Definition Selector := string.

Record ISelectionId := {
  sid_ref : nat;          (* the object's address *)
  sid_key : Selector
}.

(** [a === b] on selection identities: the same object. *)
Definition same_instance (a b : ISelectionId) : bool :=
  Nat.eqb (sid_ref a) (sid_ref b).

(** [a.equals(b)] *)
Definition sid_equals (a b : ISelectionId) : bool :=
  String.eqb (sid_key a) (sid_key b).

(** [ids.indexOf(x)]: the first position holding the same object, or -1. *)
Fixpoint indexOf_from (ids : list ISelectionId) (x : ISelectionId) (i : Z) : Z :=
  match ids with
  | [] => (-1)%Z
  | y :: ids' => if same_instance y x then i else indexOf_from ids' x (i + 1)%Z
  end.

Definition indexOf (ids : list ISelectionId) (x : ISelectionId) : Z :=
  indexOf_from ids x 0%Z.

(** ** The visual's own data *)

Record VisualTooltipDataItem := {
  tip_displayName : string;
  tip_value : js string
}.

Record DataPoint := {
  category : js string;
  value : js number;
  color : string;
  selectionId : ISelectionId;
  highlighted : bool;
  tooltips : list VisualTooltipDataItem
}.

Record ViewModel := {
  dataPoints : list DataPoint;
  maxValue : js number;
  highlights : bool
}.

Record VisualSettings := {
  xAxis_show : bool
}.

(** ** The host services [this.host] and [this.selectionManager], and
    the engine's number printer *)

Record IVisualHost (SM : Type) := {
  (* colorPalette.getColor(key).value *)
  colorPalette_getColor : js string -> string;
  (* createSelectionIdBuilder().withCategory(categories, i): the key of
     the identity that createSelectionId() then allocates *)
  withCategory : DataViewCategoryColumn -> nat -> Selector;
  (* selectionManager.select(id, multiSelect) on a manager in state SM:
     the list the promise resolves with, and the manager afterwards *)
  select : SM -> ISelectionId -> bool -> list ISelectionId * SM;
  (* createSelectionManager(): a manager with nothing selected *)
  createSelectionManager : SM;
  (* VisualSettings.parse(dataView), from ./settings *)
  parse : js DataView -> VisualSettings;
  (* n.toString() on a number: the engine's Number.prototype.toString *)
  number_toString : number -> string
}.
Arguments number_toString {SM} _ _.
Arguments createSelectionManager {SM} _.
Arguments colorPalette_getColor {SM} _ _.
Arguments withCategory {SM} _ _ _.
Arguments select {SM} _ _ _ _.
Arguments parse {SM} _ _.

(** ** Library functions the builder calls *)

(** [dataViewObjects.getFillColor(objects, {objectName, propertyName},
    defaultColor)] of powerbi-visuals-utils-dataviewutils: the colour of
    the solid fill stored under the property, or the default when the
    object, the property or its solid part is missing. *)
Definition getFillColor (objects : DataViewObjects)
    (objectName propertyName : string) (defaultColor : js string) : js string :=
  match objects !! objectName with
  | None => defaultColor
  | Some object =>
      match object !! propertyName with
      | None => defaultColor
      | Some fill =>
          match solid fill with
          | Val c => c
          | _ => defaultColor
          end
      end
  end.

(** [d3.max(array, f)] of d3 v3: skips [null], [undefined] and [NaN];
    the first loop looks for a first comparable value, the second keeps
    the greatest one.  On an array without comparable value the result is
    [undefined]. *)
Fixpoint d3_max_rest {A} (f : A -> js number) (array : list A) (a : number) : number :=
  match array with
  | [] => a
  | x :: array' =>
      match f x with
      | Val b => if number_gt b a then d3_max_rest f array' b
                 else d3_max_rest f array' a
      | _ => d3_max_rest f array' a
      end
  end.

Fixpoint d3_max {A} (f : A -> js number) (array : list A) : js number :=
  match array with
  | [] => Undefined
  | x :: array' =>
      match f x with
      | Val b => if number_ge b b then Val (d3_max_rest f array' b)
                 else d3_max f array'
      | _ => d3_max f array'
      end
  end.

(** ** [Visual.getViewModel] *)

Section Builder.
Context {SM : Type} (host : IVisualHost SM).

(** The view model the function starts from and returns early. *)
Definition emptyViewModel : ViewModel :=
  {| dataPoints := []; maxValue := Val (Num 0); highlights := false |}.

(** The fill found for row [i]: the left operand of [||] in the
    [color] initialiser, [objects && objects[i] && getFillColor(..)]. *)
Definition rowFill (objects : js (list (js DataViewObjects))) (i : nat) : js string :=
  match objects with
  | Val objs =>
      match index_js objs i with
      | Val o => getFillColor o "dataColor" "fill" Null
      | Null => Null
      | Undefined => Undefined
      end
  | Null => Null
  | Undefined => Undefined
  end.

(** The object literal pushed at iteration [i], its fields evaluated
    in the order they are written. *)
Definition makeDataPoint (categories : DataViewCategoryColumn)
    (values : DataViewValueColumn) (i : nat) : M DataPoint :=
  let highlights := col_highlights values in
  let objects := cat_objects categories in
  let category_i := index_js (cat_values categories) i in
  let value_i := index_js (col_values values) i in
  let fill := rowFill objects i in
  let color_i :=
    match fill with                    (* fill || getColor(..).value *)
    | Val c => if String.eqb c "" then colorPalette_getColor host category_i
               else c
    | _ => colorPalette_getColor host category_i
    end in
  ref <- alloc ;;
  let selectionId_i :=
    {| sid_ref := ref; sid_key := withCategory host categories i |} in
  let highlighted_i :=
    match highlights with
    | Val hs => if truthy (index_js hs i) then true else false
    | _ => false
    end in
  categoryName <- prop "displayName" (cat_source categories) displayName ;;
  let valueName := displayName (col_source values) in
  valueText <- prop "toString" value_i (number_toString host) ;;
  ret {| category := category_i;
         value := value_i;
         color := color_i;
         selectionId := selectionId_i;
         highlighted := highlighted_i;
         tooltips :=
           [ {| tip_displayName := categoryName ++ ":";
                tip_value := category_i |};
             {| tip_displayName := valueName ++ ":";
                tip_value := Val valueText |} ] |}.

(** [for (let i = ..; i < len; i++) viewModel.dataPoints.push(..)],
    with [todo = len - i] iterations left. *)
Fixpoint pushRows (categories : DataViewCategoryColumn)
    (values : DataViewValueColumn) (todo i : nat)
    (dataPoints : list DataPoint) : M (list DataPoint) :=
  match todo with
  | O => ret dataPoints
  | S todo' =>
      d <- makeDataPoint categories values i ;;
      pushRows categories values todo' (S i) (dataPoints ++ [d])
  end.

Definition getViewModel (options : VisualUpdateOptions) : M ViewModel :=
  let dv := dataViews options in
  let viewModel := emptyViewModel in
  match dv with                                  (* !dv *)
  | Val dv =>
  match index dv 0 with                          (* !dv[0] *)
  | Val dv0 =>
  match categorical dv0 with                     (* !dv[0].categorical *)
  | Val view =>
  match categories view with                     (* !....categories *)
  | Val cats =>
  match index cats 0 with                        (* ....categories[0].source *)
  | Val categories =>
  match cat_source categories with               (* !....source *)
  | Val _ =>
  match values view with                         (* !....values *)
  | Val vals =>
  match index vals 0 with                        (* values.highlights *)
  | Val values =>
      let len := Nat.max (length (cat_values categories))
                         (length (col_values values)) in
      dataPoints <- pushRows categories values len 0 (dataPoints viewModel) ;;
      ret {| dataPoints := dataPoints;
             maxValue := d3_max value dataPoints;
             highlights :=
               (0 <? length (filter (fun d => highlighted d = true) dataPoints))%nat |}
  | _ => throw (TypeError "Cannot read property 'highlights' of undefined")
  end
  | _ => ret viewModel
  end
  | _ => ret viewModel
  end
  | _ => throw (TypeError "Cannot read property 'source' of undefined")
  end
  | _ => ret viewModel
  end
  | _ => ret viewModel
  end
  | _ => ret viewModel
  end
  | _ => ret viewModel
  end.

End Builder.

(** ** The scene that [Visual.update] maintains *)

(** A [rect] of the bar group with the datum bound to it.  Its pixel
    geometry ([x], [y], [width], [height]) comes out of the d3 scales and
    is not part of this development. *)
Record Rect := {
  datum : DataPoint;
  attr_fill : js string;
  fill_opacity : js Q
}.

(** The configuration of a d3 scale, as passed to it. *)
Inductive Scale : Type :=
  | linear (domain : number * js number) (range : Z * Z)
  | ordinal (domain : list (js string)) (rangeRoundBands : Z * Z) (padding : Q).

Record Axis := {
  scale : Scale;
  orient : string;
  tickSize : Z
}.

(** An axis group: the axis last drawn into it by [.call(axis)], its
    [transform] attribute as a translation, and the [visibility] style
    of its tick texts. *)
Record AxisGroup := {
  axis : js Axis;
  transform : js (Z * Z);
  text_visibility : js string
}.

Record Margin := {
  margin_left : Z;
  margin_right : Z;
  margin_top : Z;
  margin_bottom : Z
}.

Definition margin : Margin :=
  {| margin_left := 30; margin_right := 20; margin_top := 40; margin_bottom := 30 |}.

Record Visual (SM : Type) := {
  settings : js VisualSettings;
  viewModel : js ViewModel;
  svg_attr : js (Z * Z);                (* width, height *)
  barGroup : list Rect;
  xAxisGroup : AxisGroup;
  yAxisGroup : AxisGroup;
  selectionManager : SM
}.
Arguments settings {SM} _.
Arguments viewModel {SM} _.
Arguments svg_attr {SM} _.
Arguments barGroup {SM} _.
Arguments xAxisGroup {SM} _.
Arguments yAxisGroup {SM} _.
Arguments selectionManager {SM} _.

(** The value given to a style: a constant, or a function of the datum. *)
Inductive StyleValue : Type :=
  | Const (q : Q)
  | Fn (f : DataPoint -> Q).

(** [selection.style({"fill-opacity": v})] *)
Definition style_fill_opacity (v : StyleValue) (bars : list Rect) : list Rect :=
  map (fun r =>
         {| datum := datum r;
            attr_fill := attr_fill r;
            fill_opacity := Val (match v with
                                 | Const q => q
                                 | Fn f => f (datum r)
                                 end) |}) bars.

(** [selection.attr({fill: d => d.color})] *)
Definition attr_fill_color (bars : list Rect) : list Rect :=
  map (fun r =>
         {| datum := datum r;
            attr_fill := Val (color (datum r));
            fill_opacity := fill_opacity r |}) bars.

(** [selectAll(".bar").data(dataPoints)] joined by index, followed by
    [enter().append("rect")] and [exit().remove()]: an existing rectangle
    is rebound to the datum at its position, a datum without rectangle
    gets a new one, a rectangle without datum is removed. *)
Fixpoint data_join (old : list Rect) (data : list DataPoint) : list Rect :=
  match data with
  | [] => []
  | d :: data' =>
      match old with
      | r :: old' =>
          {| datum := d; attr_fill := attr_fill r; fill_opacity := fill_opacity r |}
            :: data_join old' data'
      | [] =>
          {| datum := d; attr_fill := Undefined; fill_opacity := Undefined |}
            :: data_join [] data'
      end
  end.

Section Render.
Context {SM : Type} (host : IVisualHost SM).

(** The constructor: empty groups and a fresh selection manager. *)
Definition constructor : Visual SM :=
  let group := {| axis := Undefined; transform := Undefined;
                  text_visibility := Undefined |} in
  {| settings := Undefined;
     viewModel := Undefined;
     svg_attr := Undefined;
     barGroup := [];
     xAxisGroup := group;
     yAxisGroup := group;
     selectionManager := createSelectionManager host |}.

(** [options && options.dataViews && options.dataViews[0]] *)
Definition firstDataView (options : VisualUpdateOptions) : js DataView :=
  match dataViews options with
  | Val dvs => index dvs 0
  | Null => Null
  | Undefined => Undefined
  end.

Definition xAxisPadding (settings : VisualSettings) : Z :=
  if xAxis_show settings then margin_bottom margin else 10.

Definition xAxisTextVisible (settings : VisualSettings) : string :=
  if xAxis_show settings then "visible" else "hidden".

(** The [fill-opacity] that [update] gives the bar of datum [d]. *)
Definition highlightOpacity (viewModel : ViewModel) (d : DataPoint) : Q :=
  (if highlights viewModel then if highlighted d then 1 else 1 # 2 else 1)%Q.

(** The visual after [update] when it returns.  When [getViewModel]
    throws, [update] throws with it before anything is drawn; the
    assignment to [this.settings] made just before is then all that
    changed in the visual, and the result [Throw] does not carry it. *)
Definition update (this : Visual SM) (options : VisualUpdateOptions)
    : M (Visual SM) :=
  let settings := parse host (firstDataView options) in
  viewModel <- getViewModel host options ;;
  let width := width (viewport options) in
  let height := height (viewport options) in
  let xAxisPadding := xAxisPadding settings in
  let xAxisTextVisible := xAxisTextVisible settings in
  let yScale :=
    linear (Num 0, maxValue viewModel)
           (height - xAxisPadding, 0 + margin_top margin)%Z in
  let yAxis := {| scale := yScale; orient := "left"; tickSize := 1 |} in
  let xScale :=
    ordinal (map category (dataPoints viewModel))
            (0 + margin_left margin, width)%Z (1 # 2)%Q in
  let xAxis := {| scale := xScale; orient := "bottom"; tickSize := 1 |} in
  let bars := data_join (barGroup this) (dataPoints viewModel) in
  let bars := attr_fill_color bars in
  let bars := style_fill_opacity (Fn (highlightOpacity viewModel)) bars in
  ret {| settings := Val settings;
         viewModel := Val viewModel;
         svg_attr := Val (width, height);
         barGroup := bars;
         xAxisGroup :=
           {| axis := Val xAxis;
              transform := Val (0, height - xAxisPadding)%Z;
              text_visibility := Val xAxisTextVisible |};
         yAxisGroup :=
           {| axis := Val yAxis;
              transform := Val (margin_left margin, 0)%Z;
              text_visibility := text_visibility (yAxisGroup this) |};
         selectionManager := selectionManager this |}.

(** The [fill-opacity] that the click handler gives the bars once the
    selection manager has answered with [ids]. *)
Definition selectionOpacity (ids : list ISelectionId) : StyleValue :=
  if (0 <? length ids)%nat
  then Fn (fun d => if (0 <=? indexOf ids (selectionId d))%Z then 1%Q else (1 # 2)%Q)
  else Const 1%Q.

(** The handler bound to ["click"], run on the datum [d] of the bar
    that was clicked, through to the end of the [then] callback. *)
Definition onClick (this : Visual SM) (d : DataPoint) : Visual SM :=
  let '(ids, manager) := select host (selectionManager this) (selectionId d) true in
  {| settings := settings this;
     viewModel := viewModel this;
     svg_attr := svg_attr this;
     barGroup := style_fill_opacity (selectionOpacity ids) (barGroup this);
     xAxisGroup := xAxisGroup this;
     yAxisGroup := yAxisGroup this;
     selectionManager := manager |}.

(** A click on the [i]-th bar. *)
Definition click (this : Visual SM) (i : nat) : Visual SM :=
  match barGroup this !! i with
  | Some r => onClick this (datum r)
  | None => this
  end.

End Render.

(** ** The hover handlers *)

(** The argument of [tooltipService.show] and [tooltipService.move]. *)
Record TooltipShowOptions := {
  dataItems : list VisualTooltipDataItem;
  identities : list (js string);
  coordinates : Z * Z;
  isTouchEvent : bool
}.

(** The argument of [tooltipService.hide]. *)
Record TooltipHideOptions := {
  immediately : bool;
  hide_isTouchEvent : bool
}.

(** A call made to [this.host.tooltipService]. *)
Inductive TooltipServiceCall : Type :=
  | tooltip_show (options : TooltipShowOptions)
  | tooltip_move (options : TooltipShowOptions)
  | tooltip_hide (options : TooltipHideOptions).

(** The handler bound to ["mouseover"], run on the datum [d] of the bar
    under the pointer; [mouse] is [d3.mouse(this.svg.node())], the
    pointer position relative to the chart surface. *)
Definition onMouseover (mouse : Z * Z) (d : DataPoint) : TooltipServiceCall :=
  let x := fst mouse in
  let y := snd mouse in
  tooltip_show {| dataItems := tooltips d;
                  identities := [category d];
                  coordinates := (x, y);
                  isTouchEvent := false |}.

(** The handler bound to ["mouseout"]. *)
Definition onMouseout (d : DataPoint) : TooltipServiceCall :=
  tooltip_hide {| immediately := true; hide_isTouchEvent := false |}.

(** The handler bound to ["mousemove"]. *)
Definition onMousemove (mouse : Z * Z) (d : DataPoint) : TooltipServiceCall :=
  let x := fst mouse in
  let y := snd mouse in
  tooltip_move {| dataItems := tooltips d;
                  identities := [category d];
                  coordinates := (x, y);
                  isTouchEvent := false |}.

(** ** [Visual.enumerateObjectInstances] *)

(** The [properties] of an instance: [{ show }] for the x axis,
    [{ fill: { solid: { color } } }] for a data colour. *)
Inductive InstanceProperties : Type :=
  | show_property (show : bool)
  | fill_property (color : string).

Record VisualObjectInstance := {
  objectName : string;
  inst_displayName : js string;
  properties : InstanceProperties;
  selector : js Selector
}.

(** [d.selectionId.getSelector()] *)
Definition getSelector (id : ISelectionId) : Selector := sid_key id.

(** The function on [options.objectName]; the [for .. of] loop pushes
    one instance per data point, in order. *)
Definition enumerateObjectInstances {SM : Type} (this : Visual SM)
    (objectName : string) : M (list VisualObjectInstance) :=
  let objectEnumeration : list VisualObjectInstance := [] in
  if String.eqb objectName "xAxis" then
    show <- prop "xAxis" (settings this) xAxis_show ;;
    ret (objectEnumeration ++
           [ {| objectName := objectName;
                inst_displayName := Undefined;
                properties := show_property show;
                selector := Null |} ])
  else if String.eqb objectName "dataColor" then
    dataPoints <- prop "dataPoints" (viewModel this) dataPoints ;;
    ret (objectEnumeration ++
           map (fun d =>
                  {| objectName := objectName;
                     inst_displayName := category d;
                     properties := fill_property (color d);
                     selector := Val (getSelector (selectionId d)) |})
               dataPoints)
  else ret objectEnumeration.

(** ** Reading the input the way the specification names its parts *)

(** The category column and the value column of an input whose data
    view, categorical shape, categories and values are all there. *)
Definition columnsOf (options : VisualUpdateOptions)
    : option (DataViewCategoryColumn * DataViewValueColumn) :=
  match dataViews options with
  | Val (dv0 :: _) =>
      match categorical dv0 with
      | Val view =>
          match categories view, values view with
          | Val (c :: _), Val (v :: _) => Some (c, v)
          | _, _ => None
          end
      | _ => None
      end
  | _ => None
  end.

(** A part of the input that is [undefined] or [null]. *)
Definition absent {A} (x : js A) : Prop := x = Undefined \/ x = Null.

(** The number of rows: [max(category-count, value-count)]. *)
Definition rowCount (c : DataViewCategoryColumn) (v : DataViewValueColumn) : nat :=
  Nat.max (length (cat_values c)) (length (col_values v)).

(** The list [ids] holds the very object [x]. *)
Definition holds_instance (ids : list ISelectionId) (x : ISelectionId) : Prop :=
  exists y, y ∈ ids /\ sid_ref y = sid_ref x.

(** The list [ids] holds an identity that [equals] calls equal to [x]. *)
Definition holds_equal (ids : list ISelectionId) (x : ISelectionId) : Prop :=
  exists y, y ∈ ids /\ sid_equals y x = true.

(** Row [i] of the category column carries a fill colour [c0] under
    ("dataColor", "fill"). *)
Definition rowOverride (c : DataViewCategoryColumn) (i : nat) (c0 : string) : Prop :=
  exists objs o object fill,
    cat_objects c = Val objs /\ objs !! i = Some (Val o) /\
    o !! "dataColor" = Some object /\ object !! "fill" = Some fill /\
    solid fill = Val (Val c0) /\ c0 <> "".

(** Row [i] is highlighted in the input: the value column has a
    highlight array whose entry [i] is truthy. *)
Definition rowHighlighted (v : DataViewValueColumn) (i : nat) : bool :=
  match col_highlights v with
  | Val hs => truthy (index_js hs i)
  | _ => false
  end.

(** Some row of the input is highlighted. *)
Definition anyHighlighted (c : DataViewCategoryColumn) (v : DataViewValueColumn) : bool :=
  existsb (rowHighlighted v) (seq 0 (rowCount c v)).

(** The bar that a render draws for the data point [d] of the view
    model [vm]. *)
Definition renderedBar (vm : ViewModel) (d : DataPoint) : Rect :=
  {| datum := d;
     attr_fill := Val (color d);
     fill_opacity := Val (highlightOpacity vm d) |}.

(** ** Sample hosts and inputs *)

Module Sample.

(** A selection manager that keeps the identity objects it was given,
    toggling by [equals]. *)
Definition toggle (selection : list ISelectionId) (id : ISelectionId)
    (multiSelect : bool) : list ISelectionId :=
  if existsb (sid_equals id) selection
  then filter (fun y => sid_equals id y = false) selection
  else if multiSelect then selection ++ [id] else [id].

(** The printer of the sample engine: the decimal digits of an integer
    below 10^21, as the engine prints it, and the engine's names for the
    infinities and [NaN].  The samples run on this engine use no other
    number. *)
Definition toString (n : number) : string :=
  match n with
  | Num q =>
      let r := Qred q in
      if ((Qden r =? 1)%positive && (Z.abs (Qnum r) <? 10 ^ 21)%Z)%bool
      then NilZero.string_of_int (Z.to_int (Qnum r))
      else ""
  | Infinity => "Infinity"
  | NegInfinity => "-Infinity"
  | NaN => "NaN"
  end.

Definition host (show : bool) : IVisualHost (list ISelectionId) :=
  {| colorPalette_getColor :=
       fun key => match key with Val s => ("palette-" ++ s)%string | _ => "palette-" end;
     withCategory :=
       fun c i => match index_js (cat_values c) i with Val s => s | _ => "" end;
     select := fun selection id multi =>
                 (toggle selection id multi, toggle selection id multi);
     createSelectionManager := [];
     parse := fun _ => {| xAxis_show := show |};
     number_toString := toString |}.

Definition categoryColumn (cs : list (js string))
    (objects : js (list (js DataViewObjects))) : DataViewCategoryColumn :=
  {| cat_source := Val {| displayName := "Category" |};
     cat_values := cs;
     cat_objects := objects |}.

Definition valueColumn (vs : list (js number))
    (hs : js (list (js number))) : DataViewValueColumn :=
  {| col_source := {| displayName := "Measure" |};
     col_values := vs;
     col_highlights := hs |}.

Definition options (cats : js (list DataViewCategoryColumn))
    (vals : js (list DataViewValueColumn)) : VisualUpdateOptions :=
  {| dataViews := Val [ {| categorical :=
                             Val {| categories := cats; values := vals |} |} ];
     viewport := {| width := 300; height := 200 |} |}.

Definition abc : list (js string) := [Val "A"; Val "B"; Val "C"].
Definition v312 : list (js number) := [Val (Num 3); Val (Num 1); Val (Num 2)].

(** categories A, B, C with values 3, 1, 2 *)
Definition plain : VisualUpdateOptions :=
  options (Val [categoryColumn abc Undefined]) (Val [valueColumn v312 Undefined]).

(** the same with highlights [1, 0, 0] *)
Definition highlighted100 : VisualUpdateOptions :=
  options (Val [categoryColumn abc Undefined])
          (Val [valueColumn v312 (Val [Val (Num 1); Val (Num 0); Val (Num 0)])]).

(** the same with a red fill stored for row 1 *)
Definition red : Fill := {| solid := Val (Val "#FF0000") |}.
Definition overridden : VisualUpdateOptions :=
  options (Val [categoryColumn abc
                  (Val [Undefined; Val {[ "dataColor" := {[ "fill" := red ]} ]}])])
          (Val [valueColumn v312 Undefined]).

(** a data point of these inputs, as the builder makes it *)
Definition point (ref : nat) (cat : string) (z : Q) (text : string)
    (col : string) (hl : bool) : DataPoint :=
  {| category := Val cat;
     value := Val (Num z);
     color := col;
     selectionId := {| sid_ref := ref; sid_key := cat |};
     highlighted := hl;
     tooltips := [ {| tip_displayName := "Category:"; tip_value := Val cat |};
                   {| tip_displayName := "Measure:"; tip_value := Val text |} ] |}.

Definition plain_vm : ViewModel :=
  {| dataPoints := [ point 0 "A" 3 "3" "palette-A" false;
                     point 1 "B" 1 "1" "palette-B" false;
                     point 2 "C" 2 "2" "palette-C" false ];
     maxValue := Val (Num 3);
     highlights := false |}.

Definition highlighted100_vm : ViewModel :=
  {| dataPoints := [ point 0 "A" 3 "3" "palette-A" true;
                     point 1 "B" 1 "1" "palette-B" false;
                     point 2 "C" 2 "2" "palette-C" false ];
     maxValue := Val (Num 3);
     highlights := true |}.

Definition overridden_vm : ViewModel :=
  {| dataPoints := [ point 0 "A" 3 "3" "palette-A" false;
                     point 1 "B" 1 "1" "#FF0000" false;
                     point 2 "C" 2 "2" "palette-C" false ];
     maxValue := Val (Num 3);
     highlights := false |}.

(** a categories list that is present but empty, and no values *)
Definition noCategoryColumn : VisualUpdateOptions :=
  options (Val []) Undefined.

(** two categories, one value *)
Definition fewerValues : VisualUpdateOptions :=
  options (Val [categoryColumn [Val "A"; Val "B"] Undefined])
          (Val [valueColumn [Val (Num 1)] Undefined]).

(** both columns present and empty *)
Definition noRows : VisualUpdateOptions :=
  options (Val [categoryColumn [] Undefined]) (Val [valueColumn [] Undefined]).

(** The visual after [update] on [options], from [this] at heap [h]. *)
Definition updated (show : bool) (this : Visual (list ISelectionId))
    (options : VisualUpdateOptions) (h : Heap) : Visual (list ISelectionId) :=
  match update (host show) this options h with
  | Ok (this', _) => this'
  | Throw _ => this
  end.

(** A bar as [update] leaves it. *)
Definition bar (d : DataPoint) (opacity : Q) : Rect :=
  {| datum := d; attr_fill := Val (color d); fill_opacity := Val opacity |}.

(** First render of [plain]; then a click on B; then a second render
    of the same data, which allocates new identities at 3, 4, 5 while
    the manager keeps the one of B allocated at 1. *)
Definition first : Visual (list ISelectionId) :=
  updated true (constructor (host true)) plain 0.
Definition firstB : Visual (list ISelectionId) := click (host true) first 1.
Definition second : Visual (list ISelectionId) := updated true firstB plain 3.

Definition idB1 : ISelectionId := {| sid_ref := 1; sid_key := "B" |}.
Definition idC5 : ISelectionId := {| sid_ref := 5; sid_key := "C" |}.

(** The scenes of the renders and clicks above, written out: the
    visual with the given settings flag, baseline and tick text
    visibility, view model, bars and selection, for the 300 x 200
    viewport of the samples and the categories A, B, C. *)
Definition scene (show : bool) (baseline : Z) (visibility : string)
    (vm : ViewModel) (bars : list Rect) (selection : list ISelectionId)
    : Visual (list ISelectionId) :=
  {| settings := Val {| xAxis_show := show |};
     viewModel := Val vm;
     svg_attr := Val (300, 200)%Z;
     barGroup := bars;
     xAxisGroup :=
       {| axis := Val {| scale := ordinal abc (30, 300)%Z (1 # 2)%Q;
                         orient := "bottom"; tickSize := 1 |};
          transform := Val (0, baseline)%Z;
          text_visibility := Val visibility |};
     yAxisGroup :=
       {| axis := Val {| scale := linear (Num 0, maxValue vm) (baseline, 40)%Z;
                         orient := "left"; tickSize := 1 |};
          transform := Val (30, 0)%Z;
          text_visibility := Undefined |};
     selectionManager := selection |}.

(** [highlighted100] rendered by a fresh visual *)
Definition rendered100 : Visual (list ISelectionId) :=
  scene true 170 "visible" highlighted100_vm
    [ bar (point 0 "A" 3 "3" "palette-A" true) 1%Q;
      bar (point 1 "B" 1 "1" "palette-B" false) (1 # 2)%Q;
      bar (point 2 "C" 2 "2" "palette-C" false) (1 # 2)%Q ] [].

(** [plain] rendered by a fresh visual whose settings hide the labels *)
Definition renderedHidden : Visual (list ISelectionId) :=
  scene false 190 "hidden" plain_vm
    [ bar (point 0 "A" 3 "3" "palette-A" false) 1%Q;
      bar (point 1 "B" 1 "1" "palette-B" false) 1%Q;
      bar (point 2 "C" 2 "2" "palette-C" false) 1%Q ] [].

(** [plain] rendered by a fresh visual, *)
Definition scene1 : Visual (list ISelectionId) :=
  scene true 170 "visible" plain_vm
    [ bar (point 0 "A" 3 "3" "palette-A" false) 1%Q;
      bar (point 1 "B" 1 "1" "palette-B" false) 1%Q;
      bar (point 2 "C" 2 "2" "palette-C" false) 1%Q ] [].

(** then B clicked, *)
Definition scene2 : Visual (list ISelectionId) :=
  scene true 170 "visible" plain_vm
    [ bar (point 0 "A" 3 "3" "palette-A" false) (1 # 2)%Q;
      bar (point 1 "B" 1 "1" "palette-B" false) 1%Q;
      bar (point 2 "C" 2 "2" "palette-C" false) (1 # 2)%Q ] [idB1].

(** then [plain] rendered again, from heap 3, *)
Definition plain_vm3 : ViewModel :=
  {| dataPoints := [ point 3 "A" 3 "3" "palette-A" false;
                     point 4 "B" 1 "1" "palette-B" false;
                     point 5 "C" 2 "2" "palette-C" false ];
     maxValue := Val (Num 3);
     highlights := false |}.

Definition scene3 : Visual (list ISelectionId) :=
  scene true 170 "visible" plain_vm3
    [ bar (point 3 "A" 3 "3" "palette-A" false) 1%Q;
      bar (point 4 "B" 1 "1" "palette-B" false) 1%Q;
      bar (point 5 "C" 2 "2" "palette-C" false) 1%Q ] [idB1].

(** then C clicked: B is still selected and its bar is dimmed. *)
Definition scene4 : Visual (list ISelectionId) :=
  scene true 170 "visible" plain_vm3
    [ bar (point 3 "A" 3 "3" "palette-A" false) (1 # 2)%Q;
      bar (point 4 "B" 1 "1" "palette-B" false) (1 # 2)%Q;
      bar (point 5 "C" 2 "2" "palette-C" false) 1%Q ] [idB1; idC5].

(** a value that is not an integer *)
Definition fractional : VisualUpdateOptions :=
  options (Val [categoryColumn [Val "A"] Undefined])
          (Val [valueColumn [Val (Num (1 # 2))] Undefined]).

(** one category, two values: row 1 has no category *)
Definition moreValues : VisualUpdateOptions :=
  options (Val [categoryColumn [Val "A"] Undefined])
          (Val [valueColumn [Val (Num 1); Val (Num 2)] Undefined]).

Definition moreValues_vm : ViewModel :=
  {| dataPoints :=
       [ point 0 "A" 1 "1" "palette-A" false;
         {| category := Undefined;
            value := Val (Num 2);
            color := "palette-";
            selectionId := {| sid_ref := 1; sid_key := "" |};
            highlighted := false;
            tooltips := [ {| tip_displayName := "Category:"; tip_value := Undefined |};
                          {| tip_displayName := "Measure:"; tip_value := Val "2" |} ] |} ];
     maxValue := Val (Num 2);
     highlights := false |}.

(** a value column list that is present but empty *)
Definition noValueColumn : VisualUpdateOptions :=
  options (Val [categoryColumn abc Undefined]) (Val []).

(** a category column with its source, and no values *)
Definition noValues : VisualUpdateOptions :=
  options (Val [categoryColumn abc Undefined]) Undefined.

(** no data view at all *)
Definition noDataView : VisualUpdateOptions :=
  {| dataViews := Val []; viewport := {| width := 300; height := 200 |} |}.

(** values that are not a number: [NaN] twice *)
Definition onlyNaN : VisualUpdateOptions :=
  options (Val [categoryColumn [Val "A"; Val "B"] Undefined])
          (Val [valueColumn [Val NaN; Val NaN] Undefined]).

End Sample.

(** ** The computation monad *)

Lemma bind_Ok {A B} (m : M A) (k : A -> M B) h b h' :
  bind m k h = Ok (b, h') <->
  exists a h1, m h = Ok (a, h1) /\ k a h1 = Ok (b, h').
Proof.
  unfold bind. split.
  - destruct (m h) as [[a h1]|e] eqn:E; [|discriminate].
    intros Hk. exists a, h1. auto.
  - intros (a & h1 & -> & Hk). exact Hk.
Qed.

Lemma prop_Ok {A B} what (x : js A) (get : A -> B) h b h' :
  prop what x get h = Ok (b, h') <-> exists a, x = Val a /\ b = get a /\ h' = h.
Proof.
  unfold prop, ret, throw. split.
  - destruct x as [| |a]; try discriminate.
    intros [= <- <-]. eauto.
  - intros (a & -> & -> & ->). reflexivity.
Qed.

Ltac inv_bind H :=
  repeat match type of H with
  | bind _ _ _ = Ok _ =>
      let a := fresh "a" in let h := fresh "h" in
      let H1 := fresh "Hstep" in
      apply bind_Ok in H; destruct H as (a & h & H1 & H)
  end.

(** ** One row *)

Section BuilderFacts.
Context {SM : Type} (host : IVisualHost SM).

(** What [makeDataPoint] returns, when it returns. *)
Lemma makeDataPoint_Ok c v i h d h' :
  makeDataPoint host c v i h = Ok (d, h') ->
  h' = S h /\
  exists src n,
    cat_source c = Val src /\
    index_js (col_values v) i = Val n /\
    category d = index_js (cat_values c) i /\
    value d = Val n /\
    color d = match rowFill (cat_objects c) i with
              | Val c0 => if String.eqb c0 "" then
                            colorPalette_getColor host (index_js (cat_values c) i)
                          else c0
              | _ => colorPalette_getColor host (index_js (cat_values c) i)
              end /\
    selectionId d = {| sid_ref := h; sid_key := withCategory host c i |} /\
    highlighted d = match col_highlights v with
                    | Val hs => truthy (index_js hs i)
                    | _ => false
                    end /\
    tooltips d =
      [ {| tip_displayName := displayName src ++ ":";
           tip_value := index_js (cat_values c) i |};
        {| tip_displayName := displayName (col_source v) ++ ":";
           tip_value := Val (number_toString host n) |} ].
Proof.
  unfold makeDataPoint. intros H.
  inv_bind H. unfold alloc in Hstep. injection Hstep as <- <-.
  apply prop_Ok in Hstep0 as (src & Hsrc & -> & ->).
  apply prop_Ok in Hstep1 as (n & Hn & -> & ->).
  unfold ret in H. injection H as <- <-.
  split; [reflexivity|]. exists src, n. simpl.
  repeat split; try assumption; try reflexivity.
  destruct (col_highlights v) as [| |hs]; try reflexivity.
  destruct (truthy (index_js hs i)); reflexivity.
Qed.

(** It returns as soon as the category source is there and the value
    of the row is a number. *)
Lemma makeDataPoint_returns c v i h src n :
  cat_source c = Val src ->
  index_js (col_values v) i = Val n ->
  exists d, makeDataPoint host c v i h = Ok (d, S h).
Proof.
  intros Hsrc Hn. unfold makeDataPoint, bind, alloc, prop, ret.
  rewrite Hsrc, Hn. eauto.
Qed.

(** A row whose value is missing makes [toString] throw. *)
Lemma makeDataPoint_throws c v i h src :
  cat_source c = Val src ->
  index_js (col_values v) i = Undefined \/ index_js (col_values v) i = Null ->
  exists msg, makeDataPoint host c v i h = Throw (TypeError msg).
Proof.
  intros Hsrc Hn. unfold makeDataPoint, bind, alloc, prop, ret, throw.
  rewrite Hsrc. destruct Hn as [-> | ->]; eauto.
Qed.

Lemma makeDataPoint_throws_undefined c v i h src :
  cat_source c = Val src ->
  index_js (col_values v) i = Undefined ->
  makeDataPoint host c v i h =
    Throw (TypeError "Cannot read property 'toString' of undefined").
Proof.
  intros Hsrc Hn. unfold makeDataPoint, bind, alloc, prop, ret, throw.
  rewrite Hsrc, Hn. reflexivity.
Qed.

(** ** The loop *)

Lemma pushRows_Ok c v todo : forall i dps h dps' h',
  pushRows host c v todo i dps h = Ok (dps', h') ->
  exists new,
    dps' = dps ++ new /\ length new = todo /\ h' = (h + todo)%nat /\
    forall k d, new !! k = Some d ->
      makeDataPoint host c v (i + k) (h + k) = Ok (d, S (h + k)).
Proof.
  induction todo as [|todo IH]; intros i dps h dps' h' H; simpl in H.
  - unfold ret in H. injection H as <- <-. exists [].
    rewrite app_nil_r. repeat split; auto with lia.
    intros k d Hk. rewrite lookup_nil in Hk. discriminate.
  - inv_bind H.
    pose proof (makeDataPoint_Ok _ _ _ _ _ _ Hstep) as [-> _].
    apply IH in H as (new & -> & Hlen & -> & Hnew).
    exists (a :: new). rewrite <- app_assoc. simpl.
    repeat split; auto with lia.
    intros [|k] d Hk; simpl in Hk.
    + injection Hk as <-. rewrite !Nat.add_0_r. exact Hstep.
    + apply Hnew in Hk.
      replace (i + S k)%nat with (S i + k)%nat by lia.
      replace (h + S k)%nat with (S h + k)%nat by lia. exact Hk.
Qed.

Lemma pushRows_returns c v src todo : forall i dps h,
  cat_source c = Val src ->
  (forall k, (k < todo)%nat -> exists n, index_js (col_values v) (i + k) = Val n) ->
  exists dps', pushRows host c v todo i dps h = Ok (dps', (h + todo)%nat).
Proof.
  induction todo as [|todo IH]; intros i dps h Hsrc Hall; simpl.
  - exists dps. unfold ret. f_equal. f_equal. lia.
  - destruct (Hall 0%nat) as [n Hn]; [lia|]. rewrite Nat.add_0_r in Hn.
    destruct (makeDataPoint_returns c v i h src n Hsrc Hn) as [d Hd].
    destruct (IH (S i) (dps ++ [d]) (S h) Hsrc) as [dps' Hdps'].
    { intros k Hk. destruct (Hall (S k)) as [m Hm]; [lia|].
      exists m. rewrite <- Hm. f_equal. lia. }
    exists dps'. unfold bind. rewrite Hd, Hdps'. f_equal. f_equal. lia.
Qed.

(** A missing value anywhere in the rows still to do stops the loop. *)
Lemma pushRows_throws c v src todo : forall i dps h k,
  cat_source c = Val src ->
  (k < todo)%nat ->
  index_js (col_values v) (i + k) = Undefined \/
  index_js (col_values v) (i + k) = Null ->
  exists msg, pushRows host c v todo i dps h = Throw (TypeError msg).
Proof.
  induction todo as [|todo IH]; intros i dps h k Hsrc Hk Hbad; [lia|].
  simpl. unfold bind.
  destruct (index_js (col_values v) i) as [| |n] eqn:Hi.
  - destruct (makeDataPoint_throws c v i h src Hsrc) as [msg ->]; eauto.
  - destruct (makeDataPoint_throws c v i h src Hsrc) as [msg ->]; eauto.
  - destruct (makeDataPoint_returns c v i h src n Hsrc Hi) as [d ->].
    destruct k as [|k].
    + rewrite Nat.add_0_r, Hi in Hbad. destruct Hbad; discriminate.
    + apply (IH (S i) _ (S h) k Hsrc); [lia|].
      replace (S i + k)%nat with (i + S k)%nat by lia. exact Hbad.
Qed.

End BuilderFacts.

(** ** The builder as a whole *)

Section ViewModelFacts.
Context {SM : Type} (host : IVisualHost SM).

(** The view model built from the rows [dps]. *)
Lemma getViewModel_columns options c v src :
  columnsOf options = Some (c, v) ->
  cat_source c = Val src ->
  getViewModel host options =
    (dps <- pushRows host c v (rowCount c v) 0 [] ;;
     ret {| dataPoints := dps;
            maxValue := d3_max value dps;
            highlights :=
              (0 <? length (filter (fun d => highlighted d = true) dps))%nat |}).
Proof.
  unfold columnsOf, getViewModel. intros Hcols Hsrc.
  destruct (dataViews options) as [| |[|dv0 dvs]]; try discriminate.
  simpl. destruct (categorical dv0) as [| |view]; try discriminate.
  destruct (categories view) as [| |[|c' cs]]; try discriminate;
    destruct (values view) as [| |[|v' vs]]; try discriminate.
  injection Hcols as -> ->. simpl. rewrite Hsrc. reflexivity.
Qed.

(** X1. The guard: when [dataViews], [dataViews[0]], its [categorical]
    part or the categories are missing, or when the first category
    column is there and its source or the values are missing,
    [getViewModel] returns the empty view model and allocates nothing. *)
Lemma getViewModel_guard options h :
  absent (dataViews options) \/
  (exists dvs, dataViews options = Val dvs /\
     (dvs = [] \/
      exists dv0 rest, dvs = dv0 :: rest /\
        (absent (categorical dv0) \/
         exists view, categorical dv0 = Val view /\
           (absent (categories view) \/
            exists c cs, categories view = Val (c :: cs) /\
              (absent (cat_source c) \/ absent (values view)))))) ->
  getViewModel host options h = Ok (emptyViewModel, h).
Proof.
  unfold getViewModel, absent.
  intros [[-> | ->] | (dvs & -> & [-> | (dv0 & rest & -> & H)])];
    try reflexivity.
  simpl.
  destruct H as [[-> | ->] | (view & -> & H)]; try reflexivity.
  destruct H as [[-> | ->] | (c & cs & -> & H)]; try reflexivity.
  simpl. destruct H as [[-> | ->] | [-> | ->]]; try reflexivity;
    destruct (cat_source c); reflexivity.
Qed.

(** The two ways the builder returns. *)
Lemma getViewModel_Ok options h vm h' :
  getViewModel host options h = Ok (vm, h') ->
  (vm = emptyViewModel /\ h' = h /\
   forall c v, columnsOf options = Some (c, v) -> absent (cat_source c)) \/
  (exists c v src dps,
     columnsOf options = Some (c, v) /\ cat_source c = Val src /\
     pushRows host c v (rowCount c v) 0 [] h = Ok (dps, h') /\
     vm = {| dataPoints := dps;
             maxValue := d3_max value dps;
             highlights :=
               (0 <? length (filter (fun d => highlighted d = true) dps))%nat |}).
Proof.
  intros H.
  destruct (columnsOf options) as [[c v]|] eqn:Hcols.
  - destruct (cat_source c) as [| |src] eqn:Hsrc.
    + left. revert H. unfold columnsOf in Hcols. unfold getViewModel.
      destruct (dataViews options) as [| |[|dv0 dvs]]; try discriminate.
      simpl. destruct (categorical dv0) as [| |view]; try discriminate.
      destruct (categories view) as [| |[|c' cs]]; try discriminate;
        destruct (values view) as [| |[|v' vs]]; try discriminate.
      injection Hcols as -> ->. simpl. rewrite Hsrc.
      unfold ret. intros [= <- <-]. repeat split; auto.
      intros ? ? [= <- <-]. left. exact Hsrc.
    + left. revert H. unfold columnsOf in Hcols. unfold getViewModel.
      destruct (dataViews options) as [| |[|dv0 dvs]]; try discriminate.
      simpl. destruct (categorical dv0) as [| |view]; try discriminate.
      destruct (categories view) as [| |[|c' cs]]; try discriminate;
        destruct (values view) as [| |[|v' vs]]; try discriminate.
      injection Hcols as -> ->. simpl. rewrite Hsrc.
      unfold ret. intros [= <- <-]. repeat split; auto.
      intros ? ? [= <- <-]. right. exact Hsrc.
    + right. rewrite (getViewModel_columns options c v src Hcols Hsrc) in H.
      inv_bind H. unfold ret in H. injection H as <- <-.
      exists c, v, src, a. auto.
  - left. revert H. unfold columnsOf in Hcols. unfold getViewModel.
    destruct (dataViews options) as [| |[|dv0 dvs]];
      try (unfold ret; intros [= <- <-]; repeat split; auto; discriminate).
    simpl. destruct (categorical dv0) as [| |view];
      try (unfold ret; intros [= <- <-]; repeat split; auto; discriminate).
    destruct (categories view) as [| |[|c' cs]];
      try (unfold ret, throw; intros [= <- <-]; repeat split; auto; discriminate);
      try (unfold throw; discriminate).
    simpl. destruct (cat_source c');
      try (unfold ret; intros [= <- <-]; repeat split; auto; discriminate).
    destruct (values view) as [| |[|v' vs]]; try discriminate;
      try (unfold ret; intros [= <- <-]; repeat split; auto; discriminate).
Qed.

(** Row [i] of a returned view model is the data point made for [i]. *)
Lemma getViewModel_row options h vm h' c v i d :
  getViewModel host options h = Ok (vm, h') ->
  columnsOf options = Some (c, v) ->
  dataPoints vm !! i = Some d ->
  makeDataPoint host c v i (h + i) = Ok (d, S (h + i)).
Proof.
  intros H Hcols Hi.
  apply getViewModel_Ok in H as [(-> & _ & _) | (c' & v' & src & dps & Hc & _ & Hpush & ->)].
  - simpl in Hi. rewrite lookup_nil in Hi. discriminate.
  - rewrite Hcols in Hc. injection Hc as <- <-.
    apply pushRows_Ok in Hpush as (new & -> & _ & _ & Hnew).
    simpl in Hi. exact (Hnew i d Hi).
Qed.

(** A returned view model has one data point per row. *)
Lemma getViewModel_length options h vm h' c v src :
  getViewModel host options h = Ok (vm, h') ->
  columnsOf options = Some (c, v) ->
  cat_source c = Val src ->
  length (dataPoints vm) = rowCount c v.
Proof.
  intros H Hcols Hsrc.
  rewrite (getViewModel_columns options c v src Hcols Hsrc) in H.
  inv_bind H. unfold ret in H. injection H as <- <-.
  apply pushRows_Ok in Hstep as (new & -> & Hlen & _). exact Hlen.
Qed.

(** The builder returns when every row has a value. *)
Lemma getViewModel_returns options h c v src :
  columnsOf options = Some (c, v) ->
  cat_source c = Val src ->
  (forall i, (i < rowCount c v)%nat -> exists n, index_js (col_values v) i = Val n) ->
  exists vm, getViewModel host options h = Ok (vm, (h + rowCount c v)%nat) /\
             length (dataPoints vm) = rowCount c v.
Proof.
  intros Hcols Hsrc Hall.
  destruct (pushRows_returns host c v src (rowCount c v) 0 [] h Hsrc Hall)
    as [dps Hdps].
  eexists. split.
  - rewrite (getViewModel_columns options c v src Hcols Hsrc).
    unfold bind. rewrite Hdps. reflexivity.
  - simpl. apply pushRows_Ok in Hdps as (new & -> & Hlen & _). exact Hlen.
Qed.

(** It throws when a row has none, and so whenever there are fewer
    values than categories. *)
Lemma getViewModel_throws options h c v src i :
  columnsOf options = Some (c, v) ->
  cat_source c = Val src ->
  (i < rowCount c v)%nat ->
  absent (index_js (col_values v) i) ->
  exists msg, getViewModel host options h = Throw (TypeError msg).
Proof.
  intros Hcols Hsrc Hi Hbad.
  rewrite (getViewModel_columns options c v src Hcols Hsrc).
  unfold bind.
  destruct (pushRows_throws host c v src (rowCount c v) 0 [] h i Hsrc Hi Hbad)
    as [msg ->].
  eauto.
Qed.

Lemma getViewModel_throws_fewer_values options h c v src :
  columnsOf options = Some (c, v) ->
  cat_source c = Val src ->
  (length (col_values v) < length (cat_values c))%nat ->
  exists msg, getViewModel host options h = Throw (TypeError msg).
Proof.
  intros Hcols Hsrc Hlt.
  apply (getViewModel_throws options h c v src (length (col_values v)) Hcols Hsrc).
  - unfold rowCount. lia.
  - left. unfold index_js. rewrite lookup_ge_None_2; [reflexivity|lia].
Qed.

End ViewModelFacts.

(** ** Comparing numbers *)

Lemma number_ge_refl n : n <> NaN -> number_ge n n = true.
Proof.
  destruct n as [q| | |]; simpl; try reflexivity; [|contradiction].
  intros _. apply Qle_bool_iff, Qle_refl.
Qed.

Lemma number_ge_not_NaN a b : number_ge a b = true -> a <> NaN /\ b <> NaN.
Proof. destruct a, b; simpl; intros H; split; discriminate. Qed.

Lemma number_gt_not_NaN a b : number_gt a b = true -> a <> NaN /\ b <> NaN.
Proof. destruct a, b; simpl; intros H; split; discriminate. Qed.

Lemma number_gt_ge a b : number_gt a b = true -> number_ge a b = true.
Proof.
  destruct a as [x| | |], b as [y| | |]; simpl; try discriminate; try reflexivity.
  intros H. apply negb_true_iff in H. apply Qle_bool_iff.
  destruct (Qlt_le_dec y x) as [Hlt|Hle].
  - apply Qlt_le_weak. exact Hlt.
  - apply Qle_bool_iff in Hle. congruence.
Qed.

(** On numbers other than [NaN] the comparison is total ... *)
Lemma number_not_gt_ge a b :
  a <> NaN -> b <> NaN -> number_gt b a = false -> number_ge a b = true.
Proof.
  destruct a as [x| | |], b as [y| | |]; simpl; try discriminate; try reflexivity;
    try contradiction.
  intros _ _ H. apply negb_false_iff in H. exact H.
Qed.

(** ... and transitive. *)
Lemma number_ge_trans a b c :
  number_ge a b = true -> number_ge b c = true -> number_ge a c = true.
Proof.
  destruct a as [x| | |], b as [y| | |], c as [z| | |]; simpl;
    try discriminate; try reflexivity.
  intros Hyx Hzy. apply Qle_bool_iff in Hyx, Hzy. apply Qle_bool_iff.
  exact (Qle_trans _ _ _ Hzy Hyx).
Qed.

(** ** [d3.max] *)

Lemma d3_max_rest_spec {A} (f : A -> js number) (array : list A) : forall a,
  a <> NaN ->
  d3_max_rest f array a <> NaN /\
  number_ge (d3_max_rest f array a) a = true /\
  (d3_max_rest f array a = a \/
   exists x, x ∈ array /\ f x = Val (d3_max_rest f array a)) /\
  forall x n, x ∈ array -> f x = Val n -> n <> NaN ->
    number_ge (d3_max_rest f array a) n = true.
Proof.
  induction array as [|x array IH]; intros a Ha; simpl.
  - split; [exact Ha|]. split; [exact (number_ge_refl a Ha)|]. split; [auto|].
    intros x n Hx. apply not_elem_of_nil in Hx. contradiction.
  - assert (Hskip : (forall n, f x = Val n -> n <> NaN -> number_ge a n = true) ->
              d3_max_rest f array a <> NaN /\
              number_ge (d3_max_rest f array a) a = true /\
              (d3_max_rest f array a = a \/
               exists y, y ∈ x :: array /\ f y = Val (d3_max_rest f array a)) /\
              forall y n, y ∈ x :: array -> f y = Val n -> n <> NaN ->
                number_ge (d3_max_rest f array a) n = true).
    { intros Hle. destruct (IH a Ha) as (Hm & Hma & Hin & Hub).
      split; [exact Hm|]. split; [exact Hma|]. split.
      - destruct Hin as [Heq | (y & Hy & Hfy)]; [auto|].
        right. exists y. split; [apply elem_of_cons; auto|done].
      - intros y n Hy Hfy Hn. apply elem_of_cons in Hy as [-> | Hy]; [|eauto].
        exact (number_ge_trans _ _ _ Hma (Hle n Hfy Hn)). }
    destruct (f x) as [| |b] eqn:Hfx;
      try (apply Hskip; intros n Hn; discriminate).
    destruct (number_gt b a) eqn:Hgt.
    + destruct (number_gt_not_NaN b a Hgt) as [Hb _].
      destruct (IH b Hb) as (Hm & Hmb & Hin & Hub).
      split; [exact Hm|]. split.
      { exact (number_ge_trans _ _ _ Hmb (number_gt_ge b a Hgt)). }
      split.
      * right. destruct Hin as [Heq | (y & Hy & Hfy)].
        -- exists x. split; [apply elem_of_cons; auto|]. rewrite Heq. exact Hfx.
        -- exists y. split; [apply elem_of_cons; auto|done].
      * intros y n Hy Hfy Hn. apply elem_of_cons in Hy as [-> | Hy]; [|eauto].
        rewrite Hfx in Hfy. injection Hfy as <-. exact Hmb.
    + apply Hskip. intros n [= <-] Hn. exact (number_not_gt_ge a b Ha Hn Hgt).
Qed.

(** With a number other than [NaN] among the values, [d3.max] is the
    greatest of them. *)
Lemma d3_max_greatest {A} (f : A -> js number) (array : list A) :
  (exists x n, x ∈ array /\ f x = Val n /\ n <> NaN) ->
  exists m, d3_max f array = Val m /\ m <> NaN /\
    (exists x, x ∈ array /\ f x = Val m) /\
    forall x n, x ∈ array -> f x = Val n -> n <> NaN -> number_ge m n = true.
Proof.
  induction array as [|x array IH]; intros (x0 & n0 & Hx0 & Hfx0 & Hn0).
  - apply not_elem_of_nil in Hx0. contradiction.
  - assert (Hskip : (forall n, f x = Val n -> n = NaN) ->
              exists m, d3_max f array = Val m /\ m <> NaN /\
                (exists y, y ∈ x :: array /\ f y = Val m) /\
                forall y n, y ∈ x :: array -> f y = Val n -> n <> NaN ->
                  number_ge m n = true).
    { intros Hnot. apply elem_of_cons in Hx0 as [-> | Hx0].
      { destruct Hn0. exact (Hnot n0 Hfx0). }
      destruct IH as (m & Hm & Hmn & (y & Hy & Hfy) & Hub); [eauto|].
      exists m. split; [exact Hm|]. split; [exact Hmn|]. split.
      - exists y. split; [apply elem_of_cons; auto|done].
      - intros y' n Hy' Hfy' Hn. apply elem_of_cons in Hy' as [-> | Hy']; [|eauto].
        destruct Hn. exact (Hnot n Hfy'). }
    simpl. destruct (f x) as [| |b] eqn:Hfx;
      try (apply Hskip; intros n Hn; discriminate).
    destruct (number_ge b b) eqn:Hbb.
    + destruct (number_ge_not_NaN b b Hbb) as [Hb _].
      destruct (d3_max_rest_spec f array b Hb) as (Hm & Hmb & Hin & Hub).
      eexists. split; [reflexivity|]. split; [exact Hm|]. split.
      * destruct Hin as [Heq | (y & Hy & Hfy)].
        -- exists x. split; [apply elem_of_cons; auto|]. rewrite Heq. exact Hfx.
        -- exists y. split; [apply elem_of_cons; auto|done].
      * intros y n Hy Hfy Hn. apply elem_of_cons in Hy as [-> | Hy]; [|eauto].
        rewrite Hfx in Hfy. injection Hfy as <-. exact Hmb.
    + apply Hskip. intros n [= <-].
      destruct b; try reflexivity; simpl in Hbb; try discriminate.
      rewrite (proj2 (Qle_bool_iff q q) (Qle_refl q)) in Hbb. discriminate.
Qed.

(** Without one, and so on the empty array, it is [undefined]. *)
Lemma d3_max_undefined {A} (f : A -> js number) (array : list A) :
  (forall x n, x ∈ array -> f x = Val n -> n = NaN) ->
  d3_max f array = Undefined.
Proof.
  induction array as [|x array IH]; intros Hnone; [reflexivity|].
  simpl. assert (Hx : x ∈ x :: array) by (apply elem_of_cons; auto).
  assert (Hrest : d3_max f array = Undefined).
  { apply IH. intros y n Hy. apply Hnone, elem_of_cons. auto. }
  destruct (f x) as [| |b] eqn:Hfx; auto.
  rewrite (Hnone x b Hx Hfx). simpl. exact Hrest.
Qed.

Lemma filter_nonempty {A} (P : A -> Prop) `{forall x, Decision (P x)} (l : list A) :
  (0 <? length (filter P l))%nat = true <-> exists x, x ∈ l /\ P x.
Proof.
  rewrite Nat.ltb_lt. split.
  - destruct (filter P l) as [|x l'] eqn:Hf; simpl; [lia|]. intros _.
    assert (Hx : x ∈ filter P l) by (rewrite Hf; apply elem_of_cons; auto).
    apply list_elem_of_filter in Hx as [HP Hx]. eauto.
  - intros (x & Hx & HP).
    assert (Hin : x ∈ filter P l) by (apply list_elem_of_filter; auto).
    destruct (filter P l); [by apply not_elem_of_nil in Hin|simpl; lia].
Qed.

(** The fill of a row is a non-empty colour exactly when the row
    carries an override. *)
Lemma rowFill_override c i c0 :
  rowFill (cat_objects c) i = Val c0 /\ c0 <> "" <-> rowOverride c i c0.
Proof.
  unfold rowOverride, rowFill, index_js, getFillColor. split.
  - intros [H Hne].
    destruct (cat_objects c) as [| |objs]; try discriminate.
    destruct (objs !! i) as [[| |o]|] eqn:Hi; try discriminate.
    destruct (o !! "dataColor") as [object|] eqn:Ho; try discriminate.
    destruct (object !! "fill") as [fill|] eqn:Hf; try discriminate.
    destruct (solid fill) as [| |col] eqn:Hs; try discriminate.
    subst col. exists objs, o, object, fill. auto 10.
  - intros (objs & o & object & fill & -> & -> & -> & -> & -> & Hne). auto.
Qed.

(** ** The view model: what the specification says of it *)

(** The scenario of the specification: categories A, B, C with values
    3, 1, 2 give three data points in that order, maximum 3, no
    highlight, two tooltip entries each. *)
Example getViewModel_plain :
  getViewModel (Sample.host true) Sample.plain 0 = Ok (Sample.plain_vm, 3%nat).
Proof. reflexivity. Qed.

Example getViewModel_highlighted100 :
  getViewModel (Sample.host true) Sample.highlighted100 0
  = Ok (Sample.highlighted100_vm, 3%nat).
Proof. reflexivity. Qed.

Example getViewModel_overridden :
  getViewModel (Sample.host true) Sample.overridden 0
  = Ok (Sample.overridden_vm, 3%nat).
Proof. reflexivity. Qed.

(** C1, where the code departs from it: the guard reads
    [categories[0].source] without testing [categories[0]], so on a data
    view whose categories list is present but empty (here with no values
    either) [getViewModel] throws a [TypeError] instead of returning the
    empty view model. *)
Theorem getViewModel_empty_categories_throws {SM} (host : IVisualHost SM) (h : Heap) :
  getViewModel host Sample.noCategoryColumn h
  = Throw (TypeError "Cannot read property 'source' of undefined").
Proof. reflexivity. Qed.

(** C2, where the code departs from it: with two categories and one
    value the loop reaches row 1, whose value is [undefined], and
    [toString] throws; no view model is returned. *)
Theorem getViewModel_fewer_values_throws {SM} (host : IVisualHost SM) (h : Heap) :
  getViewModel host Sample.fewerValues h
  = Throw (TypeError "Cannot read property 'toString' of undefined").
Proof. reflexivity. Qed.

(** C3, where the code departs from it: when the guard is passed and
    both columns are empty, the loop makes no data point and [d3.max]
    of the empty list overwrites the initial 0 with [undefined]. *)
Theorem getViewModel_no_rows_maxValue_undefined {SM} (host : IVisualHost SM) (h : Heap) :
  getViewModel host Sample.noRows h
  = Ok ({| dataPoints := []; maxValue := Undefined; highlights := false |}, h).
Proof. reflexivity. Qed.

(** With a number other than [NaN] among the values, [maxValue] is the
    greatest of them. *)
Lemma getViewModel_maxValue {SM} (host : IVisualHost SM) options h vm h' :
  getViewModel host options h = Ok (vm, h') ->
  (exists d n, d ∈ dataPoints vm /\ value d = Val n /\ n <> NaN) ->
  exists m, maxValue vm = Val m /\ m <> NaN /\
    (exists d, d ∈ dataPoints vm /\ value d = Val m) /\
    forall d n, d ∈ dataPoints vm -> value d = Val n -> n <> NaN ->
      number_ge m n = true.
Proof.
  intros H Hsome.
  apply getViewModel_Ok in H as [(-> & _ & _) | (c & v & src & dps & _ & _ & _ & ->)].
  - destruct Hsome as (d & z & Hd & _). simpl in Hd.
    apply not_elem_of_nil in Hd. contradiction.
  - simpl in *. apply d3_max_greatest. exact Hsome.
Qed.

(** C4: the [highlights] flag of a returned view model is true exactly
    when some data point is highlighted, and the data point of row [i]
    is highlighted exactly when the value column has a highlight array
    whose entry [i] is truthy. *)
Theorem highlights_flag {SM} (host : IVisualHost SM) options h vm h' :
  getViewModel host options h = Ok (vm, h') ->
  (highlights vm = true <-> exists d, d ∈ dataPoints vm /\ highlighted d = true) /\
  forall c v i d,
    columnsOf options = Some (c, v) ->
    dataPoints vm !! i = Some d ->
    (highlighted d = true <->
     exists hs, col_highlights v = Val hs /\ truthy (index_js hs i) = true).
Proof.
  intros H. split.
  - apply getViewModel_Ok in H as [(-> & _ & _) | (c & v & src & dps & _ & _ & _ & ->)];
      simpl.
    + split; [discriminate|]. intros (d & Hd & _).
      apply not_elem_of_nil in Hd. contradiction.
    + rewrite filter_nonempty. reflexivity.
  - intros c v i d Hcols Hi.
    pose proof (getViewModel_row host options h vm h' c v i d H Hcols Hi) as Hrow.
    apply makeDataPoint_Ok in Hrow as (_ & src & n & _ & _ & _ & _ & _ & _ & -> & _).
    destruct (col_highlights v) as [| |hs].
    + split; [discriminate|]. intros (hs & Hhs & _). discriminate.
    + split; [discriminate|]. intros (hs & Hhs & _). discriminate.
    + split; [eauto|]. intros (hs' & [= <-] & Ht). exact Ht.
Qed.

Lemma highlights_flag_witness :
  (highlights Sample.highlighted100_vm = true <->
   exists d, d ∈ dataPoints Sample.highlighted100_vm /\ highlighted d = true) /\
  forall c v i d,
    columnsOf Sample.highlighted100 = Some (c, v) ->
    dataPoints Sample.highlighted100_vm !! i = Some d ->
    (highlighted d = true <->
     exists hs, col_highlights v = Val hs /\ truthy (index_js hs i) = true).
Proof.
  apply (highlights_flag (Sample.host true) Sample.highlighted100 0%nat
           Sample.highlighted100_vm 3%nat).
  reflexivity.
Defined.

(** C8: the data point of row [i] has exactly two tooltip entries: the
    category field's display name followed by ":" with the row's
    category, then the value field's display name followed by ":" with
    the row's value converted by [toString], the engine's printer of
    numbers, whatever the number is. *)
Theorem tooltips_of_row {SM} (host : IVisualHost SM) options h vm h' c v i d :
  getViewModel host options h = Ok (vm, h') ->
  columnsOf options = Some (c, v) ->
  dataPoints vm !! i = Some d ->
  exists src n,
    cat_source c = Val src /\
    category d = index_js (cat_values c) i /\
    index_js (col_values v) i = Val n /\
    value d = Val n /\
    tooltips d =
      [ {| tip_displayName := displayName src ++ ":"; tip_value := category d |};
        {| tip_displayName := displayName (col_source v) ++ ":";
           tip_value := Val (number_toString host n) |} ].
Proof.
  intros H Hcols Hi.
  pose proof (getViewModel_row host options h vm h' c v i d H Hcols Hi) as Hrow.
  apply makeDataPoint_Ok in Hrow
    as (_ & src & n & Hsrc & Hn & Hcat & Hval & _ & _ & _ & Htips).
  exists src, n. rewrite Hcat at 2. auto.
Qed.

Lemma tooltips_of_row_witness :
  exists src n,
    cat_source (Sample.categoryColumn Sample.abc Undefined) = Val src /\
    category (Sample.point 1 "B" 1 "1" "palette-B" false)
      = index_js (cat_values (Sample.categoryColumn Sample.abc Undefined)) 1 /\
    index_js (col_values (Sample.valueColumn Sample.v312 Undefined)) 1 = Val n /\
    value (Sample.point 1 "B" 1 "1" "palette-B" false) = Val n /\
    tooltips (Sample.point 1 "B" 1 "1" "palette-B" false) =
      [ {| tip_displayName := displayName src ++ ":";
           tip_value := category (Sample.point 1 "B" 1 "1" "palette-B" false) |};
        {| tip_displayName :=
             displayName (col_source (Sample.valueColumn Sample.v312 Undefined)) ++ ":";
           tip_value := Val (number_toString (Sample.host true) n) |} ].
Proof.
  apply (tooltips_of_row (Sample.host true) Sample.plain 0%nat Sample.plain_vm 3%nat
           (Sample.categoryColumn Sample.abc Undefined)
           (Sample.valueColumn Sample.v312 Undefined) 1%nat);
    reflexivity.
Defined.

(** A value that is not an integer is printed by the engine like any
    other: whatever the host and its engine, the tooltip of 0.5 holds
    what [toString] gives for it. *)
Example tooltips_of_fraction {SM} (host : IVisualHost SM) (h : Heap) :
  match getViewModel host Sample.fractional h with
  | Ok (vm, _) =>
      map tooltips (dataPoints vm)
      = [ [ {| tip_displayName := "Category:"; tip_value := Val "A" |};
            {| tip_displayName := "Measure:";
               tip_value := Val (number_toString host (Num (1 # 2))) |} ] ]
  | Throw _ => False
  end.
Proof. reflexivity. Qed.

(** C9: the colour of the data point of row [i] is the fill stored for
    the row under ("dataColor", "fill") when the row carries one, and
    otherwise the palette colour of the row's category; the palette
    colour depends on the category alone, so equal categories get equal
    default colours. *)
Theorem color_of_row {SM} (host : IVisualHost SM) options h vm h' c v i d :
  getViewModel host options h = Ok (vm, h') ->
  columnsOf options = Some (c, v) ->
  dataPoints vm !! i = Some d ->
  (forall c0, rowOverride c i c0 -> color d = c0) /\
  ((forall c0, ~ rowOverride c i c0) ->
   color d = colorPalette_getColor host (category d)).
Proof.
  intros H Hcols Hi.
  pose proof (getViewModel_row host options h vm h' c v i d H Hcols Hi) as Hrow.
  apply makeDataPoint_Ok in Hrow
    as (_ & src & n & _ & _ & Hcat & _ & Hcol & _).
  rewrite Hcol, Hcat. split.
  - intros c0 Hov. apply rowFill_override in Hov as [-> Hne].
    apply String.eqb_neq in Hne. rewrite Hne. reflexivity.
  - intros Hnone.
    destruct (rowFill (cat_objects c) i) as [| |c0] eqn:Hfill; try reflexivity.
    destruct (String.eqb c0 "") eqn:He; [reflexivity|].
    apply String.eqb_neq in He.
    destruct (Hnone c0). apply rowFill_override. auto.
Qed.

Lemma color_of_row_witness :
  (forall c0,
     rowOverride (Sample.categoryColumn Sample.abc
                    (Val [Undefined; Val {[ "dataColor" := {[ "fill" := Sample.red ]} ]}]))
                 1 c0 ->
     color (Sample.point 1 "B" 1 "1" "#FF0000" false) = c0) /\
  ((forall c0,
      ~ rowOverride (Sample.categoryColumn Sample.abc
                       (Val [Undefined; Val {[ "dataColor" := {[ "fill" := Sample.red ]} ]}]))
                    1 c0) ->
   color (Sample.point 1 "B" 1 "1" "#FF0000" false)
   = colorPalette_getColor (Sample.host true)
       (category (Sample.point 1 "B" 1 "1" "#FF0000" false))).
Proof.
  apply (color_of_row (Sample.host true) Sample.overridden 0%nat
           Sample.overridden_vm 3%nat _
           (Sample.valueColumn Sample.v312 Undefined) 1%nat);
    reflexivity.
Defined.

(** ** The render pass *)

Lemma indexOf_from_found ids x : forall i,
  (0 <= i)%Z ->
  ((0 <=? indexOf_from ids x i)%Z = true <-> holds_instance ids x).
Proof.
  unfold holds_instance.
  induction ids as [|y ids IH]; intros i Hi; simpl.
  - split; [discriminate|]. intros (y & Hy & _).
    apply not_elem_of_nil in Hy. contradiction.
  - unfold same_instance. destruct (Nat.eqb (sid_ref y) (sid_ref x)) eqn:He.
    + apply Nat.eqb_eq in He. split.
      * intros _. exists y. split; [apply elem_of_cons; auto|exact He].
      * intros _. apply Z.leb_le. exact Hi.
    + apply Nat.eqb_neq in He. rewrite IH by lia. split.
      * intros (z & Hz & Hr). exists z. split; [apply elem_of_cons; auto|exact Hr].
      * intros (z & Hz & Hr). apply elem_of_cons in Hz as [-> | Hz]; [contradiction|].
        eauto.
Qed.

Lemma indexOf_found ids x :
  (0 <=? indexOf ids x)%Z = true <-> holds_instance ids x.
Proof. apply indexOf_from_found. lia. Qed.

Lemma style_fill_opacity_elem v bars r :
  r ∈ style_fill_opacity v bars ->
  exists r0, r0 ∈ bars /\ datum r = datum r0 /\
    fill_opacity r = Val (match v with Const q => q | Fn f => f (datum r) end).
Proof.
  unfold style_fill_opacity. rewrite list_elem_of_In, in_map_iff.
  intros (r0 & <- & Hr0). exists r0. rewrite list_elem_of_In. auto.
Qed.

Lemma style_fill_opacity_datum v bars :
  map datum (style_fill_opacity v bars) = map datum bars.
Proof.
  unfold style_fill_opacity. rewrite map_map. reflexivity.
Qed.

Lemma attr_fill_color_datum bars :
  map datum (attr_fill_color bars) = map datum bars.
Proof.
  unfold attr_fill_color. rewrite map_map. reflexivity.
Qed.

(** After the join there is one rectangle per datum, in order. *)
Lemma data_join_datum data : forall old,
  map datum (data_join old data) = data.
Proof.
  induction data as [|d data IH]; intros old; [reflexivity|].
  destruct old as [|r old]; simpl; rewrite IH; reflexivity.
Qed.

Section RenderFacts.
Context {SM : Type} (host : IVisualHost SM).

Lemma update_Ok this options h this' h' :
  update host this options h = Ok (this', h') ->
  exists vm,
    getViewModel host options h = Ok (vm, h') /\
    settings this' = Val (parse host (firstDataView options)) /\
    viewModel this' = Val vm /\
    barGroup this' =
      style_fill_opacity (Fn (highlightOpacity vm))
        (attr_fill_color (data_join (barGroup this) (dataPoints vm))) /\
    xAxisGroup this' =
      {| axis := Val {| scale := ordinal (map category (dataPoints vm))
                                   (0 + margin_left margin, width (viewport options))%Z
                                   (1 # 2)%Q;
                        orient := "bottom"; tickSize := 1 |};
         transform :=
           Val (0, height (viewport options)
                   - xAxisPadding (parse host (firstDataView options)))%Z;
         text_visibility :=
           Val (xAxisTextVisible (parse host (firstDataView options))) |} /\
    selectionManager this' = selectionManager this.
Proof.
  unfold update. intros H. inv_bind H.
  unfold ret in H. injection H as <- <-.
  exists a. simpl. auto 10.
Qed.

(** [update] returns whenever the builder does. *)
Lemma update_returns this options h vm h' :
  getViewModel host options h = Ok (vm, h') ->
  exists this', update host this options h = Ok (this', h').
Proof.
  intros H. unfold update, bind. rewrite H. unfold ret. eauto.
Qed.

Lemma click_bars this i r0 ids manager :
  barGroup this !! i = Some r0 ->
  select host (selectionManager this) (selectionId (datum r0)) true = (ids, manager) ->
  barGroup (click host this i) = style_fill_opacity (selectionOpacity ids) (barGroup this) /\
  selectionManager (click host this i) = manager.
Proof.
  intros Hi Hsel. unfold click. rewrite Hi. unfold onClick. rewrite Hsel.
  split; reflexivity.
Qed.

End RenderFacts.

(** C6: every render that returns stores the view model that
    [getViewModel] builds from the input and draws one bar per data
    point of it, in order; when that view model's [highlights] flag is
    false every bar has fill-opacity 1.0, and when it is true a
    highlighted bar has 1.0 and any other bar 0.5. *)
Theorem render_opacity {SM} (host : IVisualHost SM) this options h this' h' :
  update host this options h = Ok (this', h') ->
  exists vm,
    getViewModel host options h = Ok (vm, h') /\
    viewModel this' = Val vm /\
    map datum (barGroup this') = dataPoints vm /\
    forall r, r ∈ barGroup this' ->
      (highlights vm = false -> fill_opacity r = Val 1%Q) /\
      (highlights vm = true -> highlighted (datum r) = true ->
       fill_opacity r = Val 1%Q) /\
      (highlights vm = true -> highlighted (datum r) = false ->
       fill_opacity r = Val (1 # 2)%Q).
Proof.
  intros H. apply update_Ok in H as (vm & Hget & _ & Hvm & Hbars & _).
  exists vm. split; [exact Hget|]. split; [exact Hvm|]. rewrite Hbars. split.
  - rewrite style_fill_opacity_datum, attr_fill_color_datum. apply data_join_datum.
  - intros r Hr. apply style_fill_opacity_elem in Hr as (r0 & _ & _ & ->).
    unfold highlightOpacity.
    repeat split; intros Hh; try intros Hd; rewrite Hh; try rewrite Hd; reflexivity.
Qed.

Lemma render_opacity_witness :
  exists vm,
    getViewModel (Sample.host true) Sample.highlighted100 0 = Ok (vm, 3%nat) /\
    viewModel Sample.rendered100 = Val vm /\
    map datum (barGroup Sample.rendered100) = dataPoints vm /\
    forall r, r ∈ barGroup Sample.rendered100 ->
      (highlights vm = false -> fill_opacity r = Val 1%Q) /\
      (highlights vm = true -> highlighted (datum r) = true ->
       fill_opacity r = Val 1%Q) /\
      (highlights vm = true -> highlighted (datum r) = false ->
       fill_opacity r = Val (1 # 2)%Q).
Proof.
  apply (render_opacity (Sample.host true) (constructor (Sample.host true))
           Sample.highlighted100 0%nat Sample.rendered100 3%nat).
  reflexivity.
Defined.

(** The render of the witness, written out: the view model built from
    highlights [1, 0, 0], A at 1.0, B and C at 0.5. *)
Example render_highlighted100_scene :
  update (Sample.host true) (constructor (Sample.host true))
    Sample.highlighted100 0 = Ok (Sample.rendered100, 3%nat).
Proof. reflexivity. Qed.

(** The scenario of the specification: with highlights [1, 0, 0] the
    bar of A is drawn at 1.0 and those of B and C at 0.5. *)
Example render_highlighted100 :
  barGroup (Sample.updated true (constructor (Sample.host true))
              Sample.highlighted100 0)
  = [ Sample.bar (Sample.point 0 "A" 3 "3" "palette-A" true) 1%Q;
      Sample.bar (Sample.point 1 "B" 1 "1" "palette-B" false) (1 # 2)%Q;
      Sample.bar (Sample.point 2 "C" 2 "2" "palette-C" false) (1 # 2)%Q ].
Proof. reflexivity. Qed.

(** C7: every update that returns stores the settings parsed from the
    first data view; with [show] their [xAxis.show], the x-axis padding
    is the bottom margin, 30, when [show] is true and 10 when it is
    false; the bottom axis is drawn from the category scale of the view
    model built from the input and moved to the baseline, the height
    less the padding, in both cases, and only the visibility of its
    tick texts follows the setting: hidden when it is false. *)
Theorem xAxis_padding_and_visibility {SM} (host : IVisualHost SM)
    this options h this' h' :
  update host this options h = Ok (this', h') ->
  settings this' = Val (parse host (firstDataView options)) /\
  margin_bottom margin = 30%Z /\
  xAxisPadding (parse host (firstDataView options))
  = (if xAxis_show (parse host (firstDataView options)) then 30 else 10)%Z /\
  (exists vm,
     getViewModel host options h = Ok (vm, h') /\
     viewModel this' = Val vm /\
     axis (xAxisGroup this') =
       Val {| scale := ordinal (map category (dataPoints vm))
                         (30, width (viewport options))%Z (1 # 2)%Q;
              orient := "bottom"; tickSize := 1 |}) /\
  transform (xAxisGroup this') =
    Val (0, height (viewport options)
            - (if xAxis_show (parse host (firstDataView options))
               then 30 else 10))%Z /\
  text_visibility (xAxisGroup this') =
    Val (if xAxis_show (parse host (firstDataView options))
         then "visible" else "hidden").
Proof.
  intros H. apply update_Ok in H as (vm & Hget & Hs & Hvm & _ & Hx & _).
  rewrite Hx. simpl. unfold xAxisPadding, xAxisTextVisible. simpl.
  split; [exact Hs|]. split; [reflexivity|]. split; [reflexivity|].
  split; [eauto|]. split; reflexivity.
Qed.

Lemma xAxis_padding_and_visibility_witness :
  settings Sample.renderedHidden
  = Val (parse (Sample.host false) (firstDataView Sample.plain)) /\
  margin_bottom margin = 30%Z /\
  xAxisPadding (parse (Sample.host false) (firstDataView Sample.plain))
  = (if xAxis_show (parse (Sample.host false) (firstDataView Sample.plain))
     then 30 else 10)%Z /\
  (exists vm,
     getViewModel (Sample.host false) Sample.plain 0 = Ok (vm, 3%nat) /\
     viewModel Sample.renderedHidden = Val vm /\
     axis (xAxisGroup Sample.renderedHidden) =
       Val {| scale := ordinal (map category (dataPoints vm))
                         (30, width (viewport Sample.plain))%Z (1 # 2)%Q;
              orient := "bottom"; tickSize := 1 |}) /\
  transform (xAxisGroup Sample.renderedHidden) =
    Val (0, height (viewport Sample.plain)
            - (if xAxis_show (parse (Sample.host false) (firstDataView Sample.plain))
               then 30 else 10))%Z /\
  text_visibility (xAxisGroup Sample.renderedHidden) =
    Val (if xAxis_show (parse (Sample.host false) (firstDataView Sample.plain))
         then "visible" else "hidden").
Proof.
  apply (xAxis_padding_and_visibility (Sample.host false)
           (constructor (Sample.host false)) Sample.plain 0%nat
           Sample.renderedHidden 3%nat).
  reflexivity.
Defined.

(** The render of the witness, written out: settings with
    [show = false], tick texts hidden, the axis drawn at 200 - 10; the
    same input under [show = true] gives visible texts at 200 - 30. *)
Example render_hidden_scene :
  update (Sample.host false) (constructor (Sample.host false)) Sample.plain 0
  = Ok (Sample.renderedHidden, 3%nat) /\
  settings Sample.renderedHidden = Val {| xAxis_show := false |} /\
  text_visibility (xAxisGroup Sample.renderedHidden) = Val "hidden" /\
  transform (xAxisGroup Sample.renderedHidden) = Val (0, 190)%Z /\
  update (Sample.host true) (constructor (Sample.host true)) Sample.plain 0
  = Ok (Sample.scene1, 3%nat) /\
  text_visibility (xAxisGroup Sample.scene1) = Val "visible" /\
  transform (xAxisGroup Sample.scene1) = Val (0, 170)%Z.
Proof. repeat split; reflexivity. Qed.

(** The scenario of the specification: with [xAxis.show = false] the
    padding is 10, the tick texts are hidden and the axis is drawn at
    the baseline 200 - 10. *)
Example render_hidden_labels :
  xAxisGroup (Sample.updated false (constructor (Sample.host false)) Sample.plain 0)
  = {| axis := Val {| scale := ordinal Sample.abc (30, 300)%Z (1 # 2)%Q;
                      orient := "bottom"; tickSize := 1 |};
       transform := Val (0, 190)%Z;
       text_visibility := Val "hidden" |}.
Proof. reflexivity. Qed.

(** ** The click handler *)

(** What the click handler does: it calls [select] with the selection
    identity of the bar's datum and multi-select enabled, and restyles
    the bars from the list [ids] the call resolves with: when [ids] is
    not empty a bar whose identity object [indexOf] finds in [ids] gets
    fill-opacity 1.0 and any other bar 0.5; when [ids] is empty every
    bar gets 1.0. *)
Lemma click_opacity {SM} (host : IVisualHost SM) this i r0 ids manager :
  barGroup this !! i = Some r0 ->
  select host (selectionManager this) (selectionId (datum r0)) true = (ids, manager) ->
  selectionManager (click host this i) = manager /\
  map datum (barGroup (click host this i)) = map datum (barGroup this) /\
  forall r, r ∈ barGroup (click host this i) ->
    (ids <> [] -> holds_instance ids (selectionId (datum r)) ->
     fill_opacity r = Val 1%Q) /\
    (ids <> [] -> ~ holds_instance ids (selectionId (datum r)) ->
     fill_opacity r = Val (1 # 2)%Q) /\
    (ids = [] -> fill_opacity r = Val 1%Q).
Proof.
  intros Hi Hsel.
  destruct (click_bars host this i r0 ids manager Hi Hsel) as [Hbars Hman].
  split; [exact Hman|]. rewrite Hbars. split; [apply style_fill_opacity_datum|].
  intros r Hr. apply style_fill_opacity_elem in Hr as (r1 & _ & _ & ->).
  unfold selectionOpacity. destruct ids as [|y ids]; simpl.
  - repeat split; auto; intros Hne; contradiction.
  - split; [|split]; [| |discriminate].
    + intros _ Hin. apply indexOf_found in Hin. rewrite Hin. reflexivity.
    + intros _ Hout.
      destruct (0 <=? indexOf (y :: ids) (selectionId (datum r)))%Z eqn:Hix;
        [|reflexivity].
      apply indexOf_found in Hix. contradiction.
Qed.

Lemma click_opacity_witness :
  selectionManager (click (Sample.host true) Sample.first 1) = [Sample.idB1] /\
  map datum (barGroup (click (Sample.host true) Sample.first 1))
    = map datum (barGroup Sample.first) /\
  forall r, r ∈ barGroup (click (Sample.host true) Sample.first 1) ->
    ([Sample.idB1] <> [] -> holds_instance [Sample.idB1] (selectionId (datum r)) ->
     fill_opacity r = Val 1%Q) /\
    ([Sample.idB1] <> [] -> ~ holds_instance [Sample.idB1] (selectionId (datum r)) ->
     fill_opacity r = Val (1 # 2)%Q) /\
    ([Sample.idB1] = [] -> fill_opacity r = Val 1%Q).
Proof.
  apply (click_opacity (Sample.host true) Sample.first 1%nat
           (Sample.bar (Sample.point 1 "B" 1 "1" "palette-B" false) 1%Q)
           [Sample.idB1] [Sample.idB1]);
    reflexivity.
Defined.

(** The scenario of the specification: a click on B with nothing
    selected leaves B at 1.0 and A, C at 0.5; a second click on B
    empties the selection and every bar is back at 1.0. *)
Example click_B_then_B :
  barGroup (click (Sample.host true) Sample.first 1)
  = [ Sample.bar (Sample.point 0 "A" 3 "3" "palette-A" false) (1 # 2)%Q;
      Sample.bar (Sample.point 1 "B" 1 "1" "palette-B" false) 1%Q;
      Sample.bar (Sample.point 2 "C" 2 "2" "palette-C" false) (1 # 2)%Q ] /\
  selectionManager (click (Sample.host true) Sample.first 1) = [Sample.idB1] /\
  barGroup (click (Sample.host true) (click (Sample.host true) Sample.first 1) 1)
  = [ Sample.bar (Sample.point 0 "A" 3 "3" "palette-A" false) 1%Q;
      Sample.bar (Sample.point 1 "B" 1 "1" "palette-B" false) 1%Q;
      Sample.bar (Sample.point 2 "C" 2 "2" "palette-C" false) 1%Q ] /\
  selectionManager
    (click (Sample.host true) (click (Sample.host true) Sample.first 1) 1) = [].
Proof. repeat split; reflexivity. Qed.

(** C5, where the code departs from it: the handler looks the bar's
    identity up with [indexOf], which finds the same object only.
    Render A, B, C; click B; render the same data again, which gives
    the bars new identity objects; click C.  The selection manager
    answers with the identity of B it was given at the first click and
    the one of C, so B is selected, its bar carries an identity equal to
    the selected one, and it is drawn at 0.5 instead of 1.0. *)
Theorem click_dims_selected_bar_after_rerender :
  update (Sample.host true) (constructor (Sample.host true)) Sample.plain 0
  = Ok (Sample.scene1, 3%nat) /\
  click (Sample.host true) Sample.scene1 1 = Sample.scene2 /\
  update (Sample.host true) Sample.scene2 Sample.plain 3
  = Ok (Sample.scene3, 6%nat) /\
  select (Sample.host true) (selectionManager Sample.scene3)
    (selectionId (Sample.point 5 "C" 2 "2" "palette-C" false)) true
  = ([Sample.idB1; Sample.idC5], [Sample.idB1; Sample.idC5]) /\
  click (Sample.host true) Sample.scene3 2 = Sample.scene4 /\
  barGroup Sample.scene4 !! 1%nat
  = Some (Sample.bar (Sample.point 4 "B" 1 "1" "palette-B" false) (1 # 2)%Q) /\
  sid_equals Sample.idB1
    (selectionId (Sample.point 4 "B" 1 "1" "palette-B" false)) = true /\
  holds_equal (selectionManager Sample.scene4)
    (selectionId (Sample.point 4 "B" 1 "1" "palette-B" false)).
Proof.
  repeat (split; [reflexivity|]).
  exists Sample.idB1. split; [apply elem_of_cons; auto|reflexivity].
Qed.

(** C10: once the selection manager has answered a click with a
    non-empty list [ids], a bar has fill-opacity 1.0 exactly when [ids]
    holds the very object that is the selection identity of its datum;
    a bar for which [ids] only holds an identity that is equal by
    comparison, in another object, is left at 0.5. *)
Theorem click_opacity_by_instance {SM} (host : IVisualHost SM)
    this i r0 ids manager :
  barGroup this !! i = Some r0 ->
  select host (selectionManager this) (selectionId (datum r0)) true = (ids, manager) ->
  ids <> [] ->
  forall r, r ∈ barGroup (click host this i) ->
    (fill_opacity r = Val 1%Q <-> holds_instance ids (selectionId (datum r))) /\
    (holds_equal ids (selectionId (datum r)) ->
     ~ holds_instance ids (selectionId (datum r)) ->
     fill_opacity r = Val (1 # 2)%Q).
Proof.
  intros Hi Hsel Hne r Hr.
  destruct (click_bars host this i r0 ids manager Hi Hsel) as [Hbars _].
  rewrite Hbars in Hr. apply style_fill_opacity_elem in Hr as (r1 & _ & _ & ->).
  unfold selectionOpacity. destruct ids as [|y ids]; [contradiction|]. simpl.
  destruct (0 <=? indexOf (y :: ids) (selectionId (datum r)))%Z eqn:Hix.
  - apply indexOf_found in Hix. split; [tauto|]. intros _ Hout. contradiction.
  - assert (Hout : ~ holds_instance (y :: ids) (selectionId (datum r))).
    { intros Hin. apply indexOf_found in Hin. congruence. }
    split; [|reflexivity]. split; [discriminate|contradiction].
Qed.

Lemma click_opacity_by_instance_witness :
  (fill_opacity (Sample.bar (Sample.point 4 "B" 1 "1" "palette-B" false) (1 # 2)%Q)
   = Val 1%Q <->
   holds_instance [Sample.idB1; Sample.idC5]
     (selectionId (Sample.point 4 "B" 1 "1" "palette-B" false))) /\
  (holds_equal [Sample.idB1; Sample.idC5]
     (selectionId (Sample.point 4 "B" 1 "1" "palette-B" false)) ->
   ~ holds_instance [Sample.idB1; Sample.idC5]
       (selectionId (Sample.point 4 "B" 1 "1" "palette-B" false)) ->
   fill_opacity (Sample.bar (Sample.point 4 "B" 1 "1" "palette-B" false) (1 # 2)%Q)
   = Val (1 # 2)%Q).
Proof.
  apply (click_opacity_by_instance (Sample.host true) Sample.second 2%nat
           (Sample.bar (Sample.point 5 "C" 2 "2" "palette-C" false) 1%Q)
           [Sample.idB1; Sample.idC5] [Sample.idB1; Sample.idC5]
           eq_refl eq_refl
           (fun H => eq_ind [Sample.idB1; Sample.idC5]
                       (fun l => match l with [] => False | _ => True end) I [] H)
           (Sample.bar (Sample.point 4 "B" 1 "1" "palette-B" false) (1 # 2)%Q)).
  vm_compute. apply elem_of_cons. right. apply elem_of_cons. left. reflexivity.
Defined.

(** B is selected in the first render; after a second render of the
    same data its bar carries a new identity object, so a click on C,
    answered with the old object of B and the new one of C, leaves the
    bar of B at 0.5 although the answer holds an identity equal to
    its own. *)
Example click_after_second_render :
  selectionManager Sample.second = [Sample.idB1] /\
  barGroup (click (Sample.host true) Sample.second 2)
  = [ Sample.bar (Sample.point 3 "A" 3 "3" "palette-A" false) (1 # 2)%Q;
      Sample.bar (Sample.point 4 "B" 1 "1" "palette-B" false) (1 # 2)%Q;
      Sample.bar (Sample.point 5 "C" 2 "2" "palette-C" false) 1%Q ] /\
  holds_equal [Sample.idB1; Sample.idC5]
    (selectionId (Sample.point 4 "B" 1 "1" "palette-B" false)) /\
  ~ holds_instance [Sample.idB1; Sample.idC5]
      (selectionId (Sample.point 4 "B" 1 "1" "palette-B" false)).
Proof.
  split; [reflexivity|]. split; [reflexivity|]. split.
  - exists Sample.idB1. split; [apply elem_of_cons; auto|reflexivity].
  - intros (y & Hy & Href).
    apply elem_of_cons in Hy as [-> | Hy]; [discriminate|].
    apply elem_of_cons in Hy as [-> | Hy]; [discriminate|].
    apply not_elem_of_nil in Hy. contradiction.
Qed.

(** ** More on the builder: rows, order, identities *)

Lemma index_js_Val_lookup {A} (arr : list (js A)) i a :
  index_js arr i = Val a -> arr !! i = Some (Val a).
Proof.
  unfold index_js. destruct (arr !! i) as [x|]; [|discriminate].
  intros ->. reflexivity.
Qed.

Lemma map_by_lookup {A B} (f : A -> B) (l : list A) : forall l',
  length l = length l' ->
  (forall i a, l !! i = Some a -> l' !! i = Some (f a)) ->
  map f l = l'.
Proof.
  induction l as [|a l IH]; intros [|b l'] Hlen Hall; simpl in *; try discriminate.
  - reflexivity.
  - f_equal.
    + specialize (Hall 0%nat a eq_refl). simpl in Hall. congruence.
    + apply IH; [lia|]. intros i x Hx. apply (Hall (S i) x Hx).
Qed.

Lemma d3_max_rest_map {A} (f : A -> js number) (array : list A) : forall a,
  d3_max_rest f array a = d3_max_rest (fun x => x) (map f array) a.
Proof.
  induction array as [|x array IH]; intros a; simpl; [reflexivity|].
  destruct (f x) as [| |b]; auto. destruct (number_gt b a); auto.
Qed.

(** [d3.max] sees the array only through the accessor. *)
Lemma d3_max_map {A} (f : A -> js number) (array : list A) :
  d3_max f array = d3_max (fun x => x) (map f array).
Proof.
  induction array as [|x array IH]; simpl; [reflexivity|].
  destruct (f x) as [| |b]; auto.
  destruct (number_ge b b); auto. rewrite d3_max_rest_map. reflexivity.
Qed.

(** [d3.max] gives a number or [undefined], never [null] or [NaN]. *)
Lemma d3_max_number_or_undefined {A} (f : A -> js number) (array : list A) :
  d3_max f array = Undefined \/ exists m, d3_max f array = Val m /\ m <> NaN.
Proof.
  induction array as [|x array IH]; simpl; [auto|].
  destruct (f x) as [| |b]; auto.
  destruct (number_ge b b) eqn:Hbb; auto.
  destruct (number_ge_not_NaN b b Hbb) as [Hb _].
  destruct (d3_max_rest_spec f array b Hb) as (Hm & _). eauto.
Qed.

Section RowFacts.
Context {SM : Type} (host : IVisualHost SM).

(** A view model that comes out of the loop. *)
Lemma getViewModel_loop options h vm h' c v src :
  getViewModel host options h = Ok (vm, h') ->
  columnsOf options = Some (c, v) ->
  cat_source c = Val src ->
  exists dps,
    pushRows host c v (rowCount c v) 0 [] h = Ok (dps, h') /\
    vm = {| dataPoints := dps;
            maxValue := d3_max value dps;
            highlights :=
              (0 <? length (filter (fun d => highlighted d = true) dps))%nat |}.
Proof.
  intros H Hcols Hsrc.
  rewrite (getViewModel_columns host options c v src Hcols Hsrc) in H.
  inv_bind H. unfold ret in H. injection H as <- <-. eauto.
Qed.

Lemma loop_rows c v h dps h' :
  pushRows host c v (rowCount c v) 0 [] h = Ok (dps, h') ->
  length dps = rowCount c v /\ h' = (h + rowCount c v)%nat /\
  forall i d, dps !! i = Some d ->
    makeDataPoint host c v i (h + i) = Ok (d, S (h + i)).
Proof.
  intros H. apply pushRows_Ok in H as (new & -> & Hlen & -> & Hnew).
  simpl. auto.
Qed.

(** The loop only ends when every row has a value, so there are at
    least as many values as categories and the values of the data points
    are the value column. *)
Lemma loop_values c v h dps h' :
  pushRows host c v (rowCount c v) 0 [] h = Ok (dps, h') ->
  (length (cat_values c) <= length (col_values v))%nat /\
  length dps = length (col_values v) /\
  map value dps = col_values v.
Proof.
  intros H. apply loop_rows in H as (Hlen & _ & Hrow).
  assert (Hval : forall i d, dps !! i = Some d -> col_values v !! i = Some (value d)).
  { intros i d Hi. apply Hrow, makeDataPoint_Ok in Hi
      as (_ & src & n & _ & Hn & _ & -> & _).
    apply index_js_Val_lookup. exact Hn. }
  assert (Hle : (rowCount c v <= length (col_values v))%nat).
  { destruct (decide (rowCount c v <= length (col_values v))%nat) as [|Hgt]; [done|].
    destruct (lookup_lt_is_Some_2 dps (length (col_values v))) as [d Hd]; [lia|].
    apply Hval in Hd. apply lookup_lt_Some in Hd. lia. }
  unfold rowCount in *. split; [lia|]. split; [lia|].
  apply map_by_lookup; [lia|exact Hval].
Qed.

Lemma loop_categories c v h dps h' :
  pushRows host c v (rowCount c v) 0 [] h = Ok (dps, h') ->
  map category dps =
    cat_values c ++ replicate (length (col_values v) - length (cat_values c)) Undefined.
Proof.
  intros H. pose proof (loop_values c v h dps h' H) as (Hle & Hlen & _).
  apply loop_rows in H as (_ & _ & Hrow).
  apply map_by_lookup.
  - rewrite length_app, length_replicate. lia.
  - intros i d Hi. pose proof (lookup_lt_Some _ _ _ Hi) as Hlt.
    apply Hrow, makeDataPoint_Ok in Hi as (_ & src & n & _ & _ & -> & _).
    unfold index_js.
    destruct (decide (i < length (cat_values c))%nat) as [Hin|Hout].
    + rewrite lookup_app_l by exact Hin.
      destruct (lookup_lt_is_Some_2 (cat_values c) i Hin) as [x ->]. reflexivity.
    + rewrite lookup_app_r by lia.
      rewrite (lookup_ge_None_2 (cat_values c) i) by lia.
      rewrite lookup_replicate_2 by lia. reflexivity.
Qed.

(** The flag computed from the data points is the one read off the
    highlight array. *)
Lemma loop_highlights c v h dps h' :
  pushRows host c v (rowCount c v) 0 [] h = Ok (dps, h') ->
  (forall i d, dps !! i = Some d -> highlighted d = rowHighlighted v i) /\
  (0 <? length (filter (fun d => highlighted d = true) dps))%nat = anyHighlighted c v.
Proof.
  intros H. apply loop_rows in H as (Hlen & _ & Hrow).
  assert (Hhl : forall i d, dps !! i = Some d -> highlighted d = rowHighlighted v i).
  { intros i d Hi. apply Hrow, makeDataPoint_Ok in Hi
      as (_ & src & n & _ & _ & _ & _ & _ & _ & -> & _). reflexivity. }
  split; [exact Hhl|].
  apply eq_true_iff_eq. rewrite filter_nonempty. unfold anyHighlighted.
  rewrite existsb_exists. split.
  - intros (d & Hd & Ht). apply list_elem_of_lookup in Hd as [i Hi].
    exists i. split.
    + apply in_seq. apply lookup_lt_Some in Hi. lia.
    + rewrite <- (Hhl i d Hi). exact Ht.
  - intros (i & Hi & Ht). apply in_seq in Hi.
    destruct (lookup_lt_is_Some_2 dps i) as [d Hd]; [lia|].
    exists d. split; [apply list_elem_of_lookup; eauto|].
    rewrite (Hhl i d Hd). exact Ht.
Qed.

End RowFacts.

Lemma getViewModel_guard_witness :
  getViewModel (Sample.host true) Sample.noValues 7 = Ok (emptyViewModel, 7%nat).
Proof.
  apply (getViewModel_guard (Sample.host true) Sample.noValues 7%nat).
  right. eexists. split; [reflexivity|]. right. do 2 eexists. split; [reflexivity|].
  right. eexists. split; [reflexivity|]. right. do 2 eexists. split; [reflexivity|].
  right. left. reflexivity.
Defined.

Section BuilderExtras.
Context {SM : Type} (host : IVisualHost SM).

(** Without the two columns, or without the category source, the
    outcome does not depend on the heap. *)
Lemma getViewModel_no_loop options :
  (columnsOf options = None \/
   exists c v, columnsOf options = Some (c, v) /\ absent (cat_source c)) ->
  (forall h, getViewModel host options h = Ok (emptyViewModel, h)) \/
  (exists e, forall h, getViewModel host options h = Throw e).
Proof.
  unfold columnsOf, getViewModel, absent, ret, throw. intros H.
  destruct (dataViews options) as [| |[|dv0 dvs]]; auto.
  simpl. destruct (categorical dv0) as [| |view]; auto.
  destruct (categories view) as [| |[|c' cs]]; eauto.
  simpl. destruct (cat_source c') as [| |src] eqn:Hsrc; auto.
  destruct (values view) as [| |[|v' vs]]; eauto.
  destruct H as [H | (c & v & [= <- <-] & [H | H])]; congruence.
Qed.

(** X2. On an input with both columns and the category source,
    [getViewModel] returns exactly when there are at least as many
    values as categories and no value is [null] or [undefined]. *)
Theorem getViewModel_returns_iff options h c v src :
  columnsOf options = Some (c, v) ->
  cat_source c = Val src ->
  ((exists vm h', getViewModel host options h = Ok (vm, h')) <->
   (length (cat_values c) <= length (col_values v))%nat /\
   forall x, x ∈ col_values v -> exists n, x = Val n).
Proof.
  intros Hcols Hsrc. split.
  - intros (vm & h' & H).
    apply (getViewModel_loop host options h vm h' c v src) in H
      as (dps & Hpush & ->); auto.
    pose proof (loop_values host c v h dps h' Hpush) as (Hle & Hlen & Hmap).
    apply loop_rows in Hpush as (_ & _ & Hrow).
    split; [exact Hle|]. intros x Hx. rewrite <- Hmap in Hx.
    apply list_elem_of_In, in_map_iff in Hx as (d & <- & Hd).
    apply list_elem_of_In, list_elem_of_lookup in Hd as [i Hi].
    apply Hrow, makeDataPoint_Ok in Hi as (_ & s & n & _ & _ & _ & -> & _). eauto.
  - intros [Hle Hall].
    destruct (getViewModel_returns host options h c v src Hcols Hsrc) as (vm & H & _).
    + intros i Hi. unfold rowCount in Hi.
      destruct (lookup_lt_is_Some_2 (col_values v) i) as [x Hx]; [lia|].
      destruct (Hall x) as [n ->]; [apply list_elem_of_lookup; eauto|].
      exists n. unfold index_js. rewrite Hx. reflexivity.
    + eauto.
Qed.

(** X3. The guard does not cover a column list that is there but
    empty: with an empty categories list [getViewModel] throws on
    [categories[0].source], whatever the values; with a category column
    and its source but an empty list of value columns it throws on
    [values.highlights]. *)
Theorem empty_column_list_throws options h dv0 rest view :
  dataViews options = Val (dv0 :: rest) ->
  categorical dv0 = Val view ->
  (categories view = Val [] ->
   getViewModel host options h
   = Throw (TypeError "Cannot read property 'source' of undefined")) /\
  (forall c cs src,
     categories view = Val (c :: cs) -> cat_source c = Val src ->
     values view = Val [] ->
     getViewModel host options h
     = Throw (TypeError "Cannot read property 'highlights' of undefined")).
Proof.
  intros Hdv Hcat. unfold getViewModel. rewrite Hdv. simpl. rewrite Hcat. split.
  - intros ->. reflexivity.
  - intros c cs src -> Hsrc ->. simpl. rewrite Hsrc. reflexivity.
Qed.

(** X4. In a view model that comes out of the loop the values of the
    data points are the value column, in order, and their categories
    are the category column, in order, followed by [undefined] for the
    rows that have a value and no category; one object is allocated per
    row. *)
Theorem rows_follow_columns options h vm h' c v src :
  getViewModel host options h = Ok (vm, h') ->
  columnsOf options = Some (c, v) ->
  cat_source c = Val src ->
  map value (dataPoints vm) = col_values v /\
  map category (dataPoints vm) =
    cat_values c ++
    replicate (length (col_values v) - length (cat_values c)) Undefined /\
  h' = (h + length (col_values v))%nat.
Proof.
  intros H Hcols Hsrc.
  apply (getViewModel_loop host options h vm h' c v src) in H
    as (dps & Hpush & ->); auto. simpl.
  pose proof (loop_values host c v h dps h' Hpush) as (Hle & Hlen & Hmap).
  split; [exact Hmap|]. split; [exact (loop_categories host c v h dps h' Hpush)|].
  apply loop_rows in Hpush as (_ & -> & _). unfold rowCount. lia.
Qed.

(** X5. [maxValue] of a returned view model is [undefined] or a
    number, never [null] or [NaN]; with a number other than [NaN] among
    the values it is the greatest of them: the value of some data point,
    and [>=] every value that is not [NaN]; when the loop ran and every
    value is [NaN] (or there is no row) it is [undefined]. *)
Theorem maxValue_of_rows options h vm h' :
  getViewModel host options h = Ok (vm, h') ->
  (maxValue vm = Undefined \/ exists m, maxValue vm = Val m /\ m <> NaN) /\
  ((exists d n, d ∈ dataPoints vm /\ value d = Val n /\ n <> NaN) ->
   exists m, maxValue vm = Val m /\ m <> NaN /\
     (exists d, d ∈ dataPoints vm /\ value d = Val m) /\
     forall d n, d ∈ dataPoints vm -> value d = Val n -> n <> NaN ->
       number_ge m n = true) /\
  (forall c v src,
     columnsOf options = Some (c, v) -> cat_source c = Val src ->
     (forall d, d ∈ dataPoints vm -> value d = Val NaN) ->
     maxValue vm = Undefined).
Proof.
  intros H. split; [|split].
  - destruct (getViewModel_Ok host options h vm h' H)
      as [(-> & _ & _) | (c & v & src & dps & _ & _ & _ & ->)]; simpl.
    + right. eexists. split; [reflexivity|discriminate].
    + apply d3_max_number_or_undefined.
  - exact (getViewModel_maxValue host options h vm h' H).
  - intros c v src Hcols Hsrc Hnan.
    destruct (getViewModel_loop host options h vm h' c v src H Hcols Hsrc)
      as (dps & _ & Hvm).
    subst vm. simpl in *.
    apply d3_max_undefined. intros d n Hd Hn. rewrite (Hnan d Hd) in Hn.
    injection Hn as <-. reflexivity.
Qed.

(** X6. Building again from the same input, at any heap, returns as
    well, with the same [maxValue] and [highlights] and, row by row, the
    same category, value, colour, highlight flag and tooltips; the
    selection identities of a row are equal by comparison, and are the
    same object only if the two builds started at the same heap. *)
Theorem rebuild_same_rows options h1 vm1 h1' h2 :
  getViewModel host options h1 = Ok (vm1, h1') ->
  exists vm2,
    getViewModel host options h2 = Ok (vm2, (h2 + (h1' - h1))%nat) /\
    maxValue vm2 = maxValue vm1 /\
    highlights vm2 = highlights vm1 /\
    length (dataPoints vm2) = length (dataPoints vm1) /\
    forall i d1 d2,
      dataPoints vm1 !! i = Some d1 -> dataPoints vm2 !! i = Some d2 ->
      category d2 = category d1 /\ value d2 = value d1 /\
      color d2 = color d1 /\ highlighted d2 = highlighted d1 /\
      tooltips d2 = tooltips d1 /\
      sid_equals (selectionId d1) (selectionId d2) = true /\
      (same_instance (selectionId d1) (selectionId d2) = true <-> h1 = h2).
Proof.
  intros H.
  destruct (getViewModel_Ok host options h1 vm1 h1' H)
    as [(-> & -> & Habs) | (c & v & src & dps1 & Hcols & Hsrc & Hpush1 & ->)].
  - exists emptyViewModel.
    assert (Hsame : getViewModel host options h2 = Ok (emptyViewModel, h2)).
    { destruct (getViewModel_no_loop options) as [Hok | [e He]].
      - destruct (columnsOf options) as [[c v]|] eqn:Hcols; [|auto].
        right. exists c, v. split; [reflexivity|]. exact (Habs c v eq_refl).
      - apply Hok.
      - rewrite He in H. discriminate. }
    rewrite Hsame. replace (h2 + (h1 - h1))%nat with h2 by lia.
    repeat split; auto; simpl in *; rewrite lookup_nil in *; discriminate.
  - pose proof (loop_rows host c v h1 dps1 h1' Hpush1) as (Hlen1 & -> & Hrow1).
    destruct (getViewModel_returns host options h2 c v src Hcols Hsrc) as (vm2 & H2 & _).
    { intros i Hi. destruct (lookup_lt_is_Some_2 dps1 i) as [d Hd]; [lia|].
      apply Hrow1, makeDataPoint_Ok in Hd as (_ & s & n & _ & Hn & _). eauto. }
    exists vm2. replace (h1 + rowCount c v - h1)%nat with (rowCount c v) by lia.
    split; [exact H2|].
    apply (getViewModel_loop host options h2 vm2 _ c v src) in H2
      as (dps2 & Hpush2 & ->); auto. simpl.
    pose proof (loop_rows host c v h2 dps2 _ Hpush2) as (Hlen2 & _ & Hrow2).
    split; [|split; [|split; [lia|]]].
    + rewrite (d3_max_map value dps2), (d3_max_map value dps1).
      destruct (loop_values host c v h1 dps1 _ Hpush1) as (_ & _ & ->).
      destruct (loop_values host c v h2 dps2 _ Hpush2) as (_ & _ & ->). reflexivity.
    + destruct (loop_highlights host c v h1 dps1 _ Hpush1) as [_ ->].
      destruct (loop_highlights host c v h2 dps2 _ Hpush2) as [_ ->]. reflexivity.
    + intros i d1 d2 Hd1 Hd2.
      apply Hrow1, makeDataPoint_Ok in Hd1
        as (_ & s1 & n1 & Hs1 & Hn1 & Hc1 & Hv1 & Hcol1 & Hid1 & Hh1 & Ht1).
      apply Hrow2, makeDataPoint_Ok in Hd2
        as (_ & s2 & n2 & Hs2 & Hn2 & Hc2 & Hv2 & Hcol2 & Hid2 & Hh2 & Ht2).
      rewrite Hs1 in Hs2. injection Hs2 as <-.
      rewrite Hn1 in Hn2. injection Hn2 as <-.
      rewrite Hc1, Hc2, Hv1, Hv2, Hcol1, Hcol2, Hh1, Hh2, Ht1, Ht2, Hid1, Hid2.
      unfold sid_equals, same_instance. simpl.
      rewrite String.eqb_refl, Nat.eqb_eq.
      repeat split; auto; lia.
Qed.

(** X7. The selection identities of a returned view model are objects
    allocated by this call, one per row: their addresses lie between the
    heap before and the heap after, and two rows never share one.  So a
    later build never reuses the identity object of an earlier one. *)
Theorem identities_are_fresh options h vm h' :
  getViewModel host options h = Ok (vm, h') ->
  (forall d, d ∈ dataPoints vm ->
     (h <= sid_ref (selectionId d) < h')%nat) /\
  (forall i j di dj,
     dataPoints vm !! i = Some di -> dataPoints vm !! j = Some dj ->
     same_instance (selectionId di) (selectionId dj) = true -> i = j).
Proof.
  intros H.
  destruct (getViewModel_Ok host options h vm h' H)
    as [(-> & -> & _) | (c & v & src & dps & _ & _ & Hpush & ->)]; simpl.
  - split.
    + intros d Hd. apply not_elem_of_nil in Hd. contradiction.
    + intros i j di dj Hi. rewrite lookup_nil in Hi. discriminate.
  - apply loop_rows in Hpush as (Hlen & -> & Hrow). split.
    + intros d Hd. apply list_elem_of_lookup in Hd as [i Hi].
      pose proof (lookup_lt_Some _ _ _ Hi) as Hlt.
      apply Hrow, makeDataPoint_Ok in Hi as (_ & s & n & _ & _ & _ & _ & _ & -> & _).
      simpl. lia.
    + intros i j di dj Hi Hj.
      apply Hrow, makeDataPoint_Ok in Hi as (_ & s & n & _ & _ & _ & _ & _ & -> & _).
      apply Hrow, makeDataPoint_Ok in Hj as (_ & s' & n' & _ & _ & _ & _ & _ & -> & _).
      unfold same_instance. simpl. rewrite Nat.eqb_eq. lia.
Qed.

End BuilderExtras.

Lemma getViewModel_returns_iff_witness :
  (exists vm h', getViewModel (Sample.host true) Sample.plain 0 = Ok (vm, h')) <->
  (length (cat_values (Sample.categoryColumn Sample.abc Undefined))
   <= length (col_values (Sample.valueColumn Sample.v312 Undefined)))%nat /\
  forall x, x ∈ col_values (Sample.valueColumn Sample.v312 Undefined) ->
    exists n, x = Val n.
Proof.
  apply (getViewModel_returns_iff (Sample.host true) Sample.plain 0%nat
           (Sample.categoryColumn Sample.abc Undefined)
           (Sample.valueColumn Sample.v312 Undefined)
           {| displayName := "Category" |});
    reflexivity.
Defined.

Lemma empty_column_list_throws_witness :
  (categories {| categories := Val [Sample.categoryColumn Sample.abc Undefined];
                 values := Val [] |} = Val [] ->
   getViewModel (Sample.host true) Sample.noValueColumn 0
   = Throw (TypeError "Cannot read property 'source' of undefined")) /\
  (forall c cs src,
     categories {| categories := Val [Sample.categoryColumn Sample.abc Undefined];
                   values := Val [] |} = Val (c :: cs) ->
     cat_source c = Val src ->
     values {| categories := Val [Sample.categoryColumn Sample.abc Undefined];
               values := Val [] |} = Val [] ->
     getViewModel (Sample.host true) Sample.noValueColumn 0
     = Throw (TypeError "Cannot read property 'highlights' of undefined")).
Proof.
  apply (empty_column_list_throws (Sample.host true) Sample.noValueColumn 0%nat
           {| categorical :=
                Val {| categories := Val [Sample.categoryColumn Sample.abc Undefined];
                       values := Val [] |} |} []);
    reflexivity.
Defined.

(** A value column list that is present but empty. *)
Example getViewModel_noValueColumn :
  getViewModel (Sample.host true) Sample.noValueColumn 0
  = Throw (TypeError "Cannot read property 'highlights' of undefined").
Proof. reflexivity. Qed.

Lemma rows_follow_columns_witness :
  map value (dataPoints Sample.moreValues_vm)
  = col_values (Sample.valueColumn [Val (Num 1); Val (Num 2)] Undefined) /\
  map category (dataPoints Sample.moreValues_vm) =
    cat_values (Sample.categoryColumn [Val "A"] Undefined) ++
    replicate (length (col_values (Sample.valueColumn [Val (Num 1); Val (Num 2)] Undefined))
               - length (cat_values (Sample.categoryColumn [Val "A"] Undefined)))
              Undefined /\
  2%nat = (0 + length (col_values
                         (Sample.valueColumn [Val (Num 1); Val (Num 2)] Undefined)))%nat.
Proof.
  apply (rows_follow_columns (Sample.host true) Sample.moreValues 0%nat
           Sample.moreValues_vm 2%nat
           (Sample.categoryColumn [Val "A"] Undefined)
           (Sample.valueColumn [Val (Num 1); Val (Num 2)] Undefined)
           {| displayName := "Category" |});
    reflexivity.
Defined.

Lemma maxValue_of_rows_witness :
  (maxValue Sample.plain_vm = Undefined \/
   exists m, maxValue Sample.plain_vm = Val m /\ m <> NaN) /\
  ((exists d n, d ∈ dataPoints Sample.plain_vm /\ value d = Val n /\ n <> NaN) ->
   exists m, maxValue Sample.plain_vm = Val m /\ m <> NaN /\
     (exists d, d ∈ dataPoints Sample.plain_vm /\ value d = Val m) /\
     forall d n, d ∈ dataPoints Sample.plain_vm -> value d = Val n -> n <> NaN ->
       number_ge m n = true) /\
  (forall c v src,
     columnsOf Sample.plain = Some (c, v) -> cat_source c = Val src ->
     (forall d, d ∈ dataPoints Sample.plain_vm -> value d = Val NaN) ->
     maxValue Sample.plain_vm = Undefined).
Proof.
  apply (maxValue_of_rows (Sample.host true) Sample.plain 0%nat Sample.plain_vm 3%nat).
  reflexivity.
Defined.

(** Values that are all [NaN] leave [maxValue] undefined. *)
Example getViewModel_onlyNaN :
  match getViewModel (Sample.host true) Sample.onlyNaN 0 with
  | Ok (vm, _) => length (dataPoints vm) = 2%nat /\ maxValue vm = Undefined
  | Throw _ => False
  end.
Proof. split; reflexivity. Qed.

Lemma rebuild_same_rows_witness :
  exists vm2,
    getViewModel (Sample.host true) Sample.plain 3
    = Ok (vm2, (3 + (3 - 0))%nat) /\
    maxValue vm2 = maxValue Sample.plain_vm /\
    highlights vm2 = highlights Sample.plain_vm /\
    length (dataPoints vm2) = length (dataPoints Sample.plain_vm) /\
    forall i d1 d2,
      dataPoints Sample.plain_vm !! i = Some d1 -> dataPoints vm2 !! i = Some d2 ->
      category d2 = category d1 /\ value d2 = value d1 /\
      color d2 = color d1 /\ highlighted d2 = highlighted d1 /\
      tooltips d2 = tooltips d1 /\
      sid_equals (selectionId d1) (selectionId d2) = true /\
      (same_instance (selectionId d1) (selectionId d2) = true <-> 0%nat = 3%nat).
Proof.
  apply (rebuild_same_rows (Sample.host true) Sample.plain 0%nat Sample.plain_vm
           3%nat 3%nat).
  reflexivity.
Defined.

Lemma identities_are_fresh_witness :
  (forall d, d ∈ dataPoints Sample.plain_vm ->
     (0 <= sid_ref (selectionId d) < 3)%nat) /\
  (forall i j di dj,
     dataPoints Sample.plain_vm !! i = Some di ->
     dataPoints Sample.plain_vm !! j = Some dj ->
     same_instance (selectionId di) (selectionId dj) = true -> i = j).
Proof.
  apply (identities_are_fresh (Sample.host true) Sample.plain 0%nat
           Sample.plain_vm 3%nat).
  reflexivity.
Defined.

(** ** More on the render pass and the handlers *)

Lemma lookup_map_Some {A B} (f : A -> B) (l : list A) : forall i b,
  map f l !! i = Some b <-> exists a, l !! i = Some a /\ b = f a.
Proof.
  induction l as [|x l IH]; intros i b; simpl.
  - rewrite lookup_nil. split; [discriminate|]. intros (a & Ha & _).
    rewrite lookup_nil in Ha. discriminate.
  - destruct i as [|i]; simpl.
    + split; [intros [= <-]; eauto|]. intros (a & [= <-] & ->). reflexivity.
    + apply IH.
Qed.

(** Attribute and style overwrite whatever the joined rectangles had. *)
Lemma rendered_bars vm data : forall old,
  style_fill_opacity (Fn (highlightOpacity vm))
    (attr_fill_color (data_join old data))
  = map (renderedBar vm) data.
Proof.
  induction data as [|d data IH]; intros old; [reflexivity|].
  destruct old as [|r old]; simpl; f_equal; apply IH.
Qed.

Section RenderExtras.
Context {SM : Type} (host : IVisualHost SM).

Lemma update_bars this options h this' h' :
  update host this options h = Ok (this', h') ->
  exists vm,
    getViewModel host options h = Ok (vm, h') /\
    viewModel this' = Val vm /\
    settings this' = Val (parse host (firstDataView options)) /\
    barGroup this' = map (renderedBar vm) (dataPoints vm).
Proof.
  intros H. apply update_Ok in H as (vm & Hvm & Hs & Hv & Hbars & _).
  exists vm. rewrite Hbars, rendered_bars. auto.
Qed.

(** X8. A render draws each bar from its data point alone, and nothing
    of the previous scene survives it: started from any other visual,
    [update] on the same input returns as well, with the same bars, the
    same x axis, the same y axis and transform, the same settings, view
    model and size. *)
Theorem render_ignores_previous_scene this1 this2 options h t1 h' :
  update host this1 options h = Ok (t1, h') ->
  (exists vm, viewModel t1 = Val vm /\
     barGroup t1 = map (renderedBar vm) (dataPoints vm)) /\
  exists t2,
    update host this2 options h = Ok (t2, h') /\
    barGroup t2 = barGroup t1 /\
    xAxisGroup t2 = xAxisGroup t1 /\
    axis (yAxisGroup t2) = axis (yAxisGroup t1) /\
    transform (yAxisGroup t2) = transform (yAxisGroup t1) /\
    settings t2 = settings t1 /\ viewModel t2 = viewModel t1 /\
    svg_attr t2 = svg_attr t1.
Proof.
  intros H. split.
  - apply update_bars in H as (vm & _ & Hv & _ & Hb). eauto.
  - revert H. unfold update, bind.
    destruct (getViewModel host options h) as [[vm hh]|e]; [|discriminate].
    unfold ret. intros [= <- <-]. eexists. split; [reflexivity|]. simpl.
    rewrite !rendered_bars. auto 10.
Qed.

(** X9. From the input to the bar: after a render, the bar of row [i]
    is filled with the colour of its data point and has fill-opacity 1.0
    when no row of the input is highlighted, and otherwise 1.0 when
    row [i] is highlighted and 0.5 when it is not. *)
Theorem opacity_from_highlight_array this options h this' h' c v i r :
  update host this options h = Ok (this', h') ->
  columnsOf options = Some (c, v) ->
  barGroup this' !! i = Some r ->
  attr_fill r = Val (color (datum r)) /\
  fill_opacity r =
    Val (if anyHighlighted c v
         then if rowHighlighted v i then 1 else 1 # 2
         else 1)%Q.
Proof.
  intros H Hcols Hr.
  apply update_bars in H as (vm & Hvm & _ & _ & Hb).
  rewrite Hb in Hr. apply lookup_map_Some in Hr as (d & Hd & ->). simpl.
  split; [reflexivity|]. unfold highlightOpacity.
  destruct (getViewModel_Ok host options h vm h' Hvm)
    as [(-> & _ & _) | (c' & v' & src & dps & Hcols' & Hsrc & Hpush & ->)].
  - simpl in Hd. rewrite lookup_nil in Hd. discriminate.
  - rewrite Hcols in Hcols'. injection Hcols' as <- <-. simpl in *.
    destruct (loop_highlights host c v h dps h' Hpush) as [Hrow ->].
    rewrite (Hrow i d Hd). reflexivity.
Qed.

(** X10. A render after a click forgets what the click drew: the bars
    are those a render without the click gives, while the selection
    manager keeps the state the click left. *)
Theorem rerender_forgets_click this i options h t h' :
  update host (click host this i) options h = Ok (t, h') ->
  selectionManager t = selectionManager (click host this i) /\
  exists t0,
    update host this options h = Ok (t0, h') /\
    barGroup t = barGroup t0 /\
    selectionManager t0 = selectionManager this.
Proof.
  intros H. split.
  - apply update_Ok in H as (vm & _ & _ & _ & _ & _ & Hm). exact Hm.
  - revert H. unfold update, bind.
    destruct (getViewModel host options h) as [[vm hh]|e]; [|discriminate].
    unfold ret. intros [= <- <-]. eexists. split; [reflexivity|]. simpl.
    rewrite !rendered_bars. auto.
Qed.

(** X11. Hovering the bar of row [i] after a render asks the tooltip
    service to show, and on a move to move, at the pointer position, the
    two entries of the row (category field name and category, value
    field name and printed value) under the row's category as identity,
    never as a touch event; leaving the bar asks it to hide at once. *)
Theorem hover_shows_row_tooltip this options h this' h' c v i r (mouse : Z * Z) :
  update host this options h = Ok (this', h') ->
  columnsOf options = Some (c, v) ->
  barGroup this' !! i = Some r ->
  exists src n,
    cat_source c = Val src /\ index_js (col_values v) i = Val n /\
    onMouseover mouse (datum r) =
      tooltip_show
        {| dataItems :=
             [ {| tip_displayName := displayName src ++ ":";
                  tip_value := index_js (cat_values c) i |};
               {| tip_displayName := displayName (col_source v) ++ ":";
                  tip_value := Val (number_toString host n) |} ];
           identities := [index_js (cat_values c) i];
           coordinates := mouse;
           isTouchEvent := false |} /\
    onMousemove mouse (datum r) =
      tooltip_move
        {| dataItems :=
             [ {| tip_displayName := displayName src ++ ":";
                  tip_value := index_js (cat_values c) i |};
               {| tip_displayName := displayName (col_source v) ++ ":";
                  tip_value := Val (number_toString host n) |} ];
           identities := [index_js (cat_values c) i];
           coordinates := mouse;
           isTouchEvent := false |} /\
    onMouseout (datum r) =
      tooltip_hide {| immediately := true; hide_isTouchEvent := false |}.
Proof.
  intros H Hcols Hr.
  apply update_bars in H as (vm & Hvm & _ & _ & Hb).
  rewrite Hb in Hr. apply lookup_map_Some in Hr as (d & Hd & ->). simpl.
  pose proof (getViewModel_row host options h vm h' c v i d Hvm Hcols Hd) as Hrow.
  apply makeDataPoint_Ok in Hrow
    as (_ & src & n & Hsrc & Hn & Hcat & _ & _ & _ & _ & Htips).
  exists src, n. unfold onMouseover, onMousemove, onMouseout.
  rewrite Htips, Hcat. destruct mouse as [x y]. simpl. auto.
Qed.

(** X12. After a render, enumerating ["dataColor"] returns one instance
    per bar, in order: it shows the category of the bar, the colour the
    bar is filled with, and the selector of the row's selection
    identity, the key the host built for row [i]. *)
Theorem dataColor_instances_match_bars this options h this' h' c v (h2 : Heap) :
  update host this options h = Ok (this', h') ->
  columnsOf options = Some (c, v) ->
  exists l,
    enumerateObjectInstances this' "dataColor" h2 = Ok (l, h2) /\
    length l = length (barGroup this') /\
    forall i r, barGroup this' !! i = Some r ->
      exists color_i,
        attr_fill r = Val color_i /\
        l !! i = Some {| objectName := "dataColor";
                         inst_displayName := category (datum r);
                         properties := fill_property color_i;
                         selector := Val (withCategory host c i) |}.
Proof.
  intros H Hcols.
  apply update_bars in H as (vm & Hvm & Hv & _ & Hb).
  unfold enumerateObjectInstances. simpl. rewrite Hv, Hb. unfold prop, bind, ret.
  eexists. split; [reflexivity|]. simpl. split.
  - rewrite !length_map. reflexivity.
  - intros i r Hr. apply lookup_map_Some in Hr as (d & Hd & ->). simpl.
    exists (color d). split; [reflexivity|].
    pose proof (getViewModel_row host options h vm h' c v i d Hvm Hcols Hd) as Hrow.
    apply makeDataPoint_Ok in Hrow as (_ & src & n & _ & _ & _ & _ & _ & Hid & _).
    apply lookup_map_Some. exists d. split; [exact Hd|].
    unfold getSelector. rewrite Hid. reflexivity.
Qed.

(** X13. After a render [enumerateObjectInstances] never throws and
    leaves the heap alone, whatever the object name; for a name other
    than ["xAxis"] and ["dataColor"] the enumeration is empty. *)
Theorem enumerate_returns_after_update this options h this' h' name (h2 : Heap) :
  update host this options h = Ok (this', h') ->
  exists l,
    enumerateObjectInstances this' name h2 = Ok (l, h2) /\
    (name <> "xAxis" -> name <> "dataColor" -> l = []).
Proof.
  intros H. apply update_bars in H as (vm & _ & Hv & Hs & _).
  unfold enumerateObjectInstances. rewrite Hv, Hs.
  destruct (String.eqb name "xAxis") eqn:Hx.
  - apply String.eqb_eq in Hx. eexists. split; [reflexivity|]. contradiction.
  - destruct (String.eqb name "dataColor") eqn:Hd.
    + apply String.eqb_eq in Hd. eexists. split; [reflexivity|]. contradiction.
    + eexists. split; reflexivity.
Qed.

(** Before the first render the visual has neither settings nor view
    model: enumerating ["xAxis"] or ["dataColor"] on the visual the
    constructor made throws a [TypeError], and any other name gives the
    empty enumeration. *)
Lemma enumerate_before_update name (h : Heap) :
  enumerateObjectInstances (constructor host) name h =
    if String.eqb name "xAxis"
    then Throw (TypeError "Cannot read property 'xAxis' of undefined")
    else if String.eqb name "dataColor"
    then Throw (TypeError "Cannot read property 'dataPoints' of undefined")
    else Ok ([], h).
Proof.
  unfold enumerateObjectInstances, constructor. simpl.
  destruct (String.eqb name "xAxis"); [reflexivity|].
  destruct (String.eqb name "dataColor"); reflexivity.
Qed.

(** X14. After a render, enumerating ["xAxis"] returns the single
    instance of the axis, without selector, whose [show] flag is the one
    the render used: the tick texts are visible exactly when it is true,
    and the axis sits 30 above the bottom when it is true and 10 when
    not. *)
Theorem xAxis_instance_matches_render this options h this' h' (h2 : Heap) :
  update host this options h = Ok (this', h') ->
  exists show,
    enumerateObjectInstances this' "xAxis" h2
    = Ok ([ {| objectName := "xAxis";
               inst_displayName := Undefined;
               properties := show_property show;
               selector := Null |} ], h2) /\
    text_visibility (xAxisGroup this') = Val (if show then "visible" else "hidden") /\
    transform (xAxisGroup this')
    = Val (0, height (viewport options) - (if show then 30 else 10))%Z.
Proof.
  intros H. apply update_Ok in H as (vm & _ & Hs & _ & _ & Hx & _).
  exists (xAxis_show (parse host (firstDataView options))).
  unfold enumerateObjectInstances. simpl. rewrite Hs, Hx. simpl.
  unfold xAxisTextVisible, xAxisPadding.
  destruct (xAxis_show (parse host (firstDataView options))); auto.
Qed.

(** X15. After a render of an input with both columns and the category
    source there are as many bars as values, bound to the values in
    order, and the domain given to the category scale of the bottom axis
    is the category column followed by [undefined] for each value
    without category. *)
Theorem scene_follows_columns this options h this' h' c v src :
  update host this options h = Ok (this', h') ->
  columnsOf options = Some (c, v) ->
  cat_source c = Val src ->
  length (barGroup this') = length (col_values v) /\
  map (fun r => value (datum r)) (barGroup this') = col_values v /\
  axis (xAxisGroup this') =
    Val {| scale :=
             ordinal (cat_values c ++
                      replicate (length (col_values v) - length (cat_values c))
                                Undefined)
                     (30, width (viewport options))%Z (1 # 2)%Q;
           orient := "bottom"; tickSize := 1 |}.
Proof.
  intros H Hcols Hsrc.
  apply update_Ok in H as (vm & Hvm & _ & _ & Hb & Hx & _).
  destruct (getViewModel_loop host options h vm h' c v src Hvm Hcols Hsrc)
    as (dps & Hpush & Hvmeq).
  subst vm. simpl in *.
  pose proof (loop_values host c v h dps h' Hpush) as (_ & Hlen & Hmap).
  rewrite Hb, Hx, rendered_bars. simpl.
  rewrite (loop_categories host c v h dps h' Hpush).
  rewrite length_map, map_map. simpl. auto.
Qed.

End RenderExtras.

Lemma render_ignores_previous_scene_witness :
  (exists vm,
     viewModel (Sample.updated true (constructor (Sample.host true)) Sample.plain 3)
     = Val vm /\
     barGroup (Sample.updated true (constructor (Sample.host true)) Sample.plain 3)
     = map (renderedBar vm) (dataPoints vm)) /\
  exists t2,
    update (Sample.host true) Sample.firstB Sample.plain 3 = Ok (t2, 6%nat) /\
    barGroup t2
    = barGroup (Sample.updated true (constructor (Sample.host true)) Sample.plain 3) /\
    xAxisGroup t2
    = xAxisGroup (Sample.updated true (constructor (Sample.host true)) Sample.plain 3) /\
    axis (yAxisGroup t2)
    = axis (yAxisGroup
              (Sample.updated true (constructor (Sample.host true)) Sample.plain 3)) /\
    transform (yAxisGroup t2)
    = transform (yAxisGroup
                   (Sample.updated true (constructor (Sample.host true)) Sample.plain 3)) /\
    settings t2
    = settings (Sample.updated true (constructor (Sample.host true)) Sample.plain 3) /\
    viewModel t2
    = viewModel (Sample.updated true (constructor (Sample.host true)) Sample.plain 3) /\
    svg_attr t2
    = svg_attr (Sample.updated true (constructor (Sample.host true)) Sample.plain 3).
Proof.
  apply (render_ignores_previous_scene (Sample.host true)
           (constructor (Sample.host true)) Sample.firstB Sample.plain 3%nat).
  reflexivity.
Defined.

Lemma opacity_from_highlight_array_witness :
  attr_fill (Sample.bar (Sample.point 1 "B" 1 "1" "palette-B" false) (1 # 2)%Q)
  = Val (color (datum (Sample.bar (Sample.point 1 "B" 1 "1" "palette-B" false)
                         (1 # 2)%Q))) /\
  fill_opacity (Sample.bar (Sample.point 1 "B" 1 "1" "palette-B" false) (1 # 2)%Q)
  = Val (if anyHighlighted
              (Sample.categoryColumn Sample.abc Undefined)
              (Sample.valueColumn Sample.v312
                 (Val [Val (Num 1); Val (Num 0); Val (Num 0)]))
         then if rowHighlighted
                   (Sample.valueColumn Sample.v312
                      (Val [Val (Num 1); Val (Num 0); Val (Num 0)])) 1
              then 1 else 1 # 2
         else 1)%Q.
Proof.
  apply (opacity_from_highlight_array (Sample.host true)
           (constructor (Sample.host true)) Sample.highlighted100 0%nat
           (Sample.updated true (constructor (Sample.host true))
              Sample.highlighted100 0) 3%nat
           (Sample.categoryColumn Sample.abc Undefined)
           (Sample.valueColumn Sample.v312
              (Val [Val (Num 1); Val (Num 0); Val (Num 0)])) 1%nat);
    reflexivity.
Defined.

Lemma rerender_forgets_click_witness :
  selectionManager Sample.second
  = selectionManager (click (Sample.host true) Sample.first 1) /\
  exists t0,
    update (Sample.host true) Sample.first Sample.plain 3 = Ok (t0, 6%nat) /\
    barGroup Sample.second = barGroup t0 /\
    selectionManager t0 = selectionManager Sample.first.
Proof.
  apply (rerender_forgets_click (Sample.host true) Sample.first 1%nat
           Sample.plain 3%nat Sample.second 6%nat).
  reflexivity.
Defined.

(** After the click on B and a second render every bar is back at 1.0
    while the manager still holds B. *)
Example second_render_after_click :
  barGroup Sample.firstB
  = [ Sample.bar (Sample.point 0 "A" 3 "3" "palette-A" false) (1 # 2)%Q;
      Sample.bar (Sample.point 1 "B" 1 "1" "palette-B" false) 1%Q;
      Sample.bar (Sample.point 2 "C" 2 "2" "palette-C" false) (1 # 2)%Q ] /\
  barGroup Sample.second
  = [ Sample.bar (Sample.point 3 "A" 3 "3" "palette-A" false) 1%Q;
      Sample.bar (Sample.point 4 "B" 1 "1" "palette-B" false) 1%Q;
      Sample.bar (Sample.point 5 "C" 2 "2" "palette-C" false) 1%Q ] /\
  selectionManager Sample.second = [Sample.idB1].
Proof. repeat split; reflexivity. Qed.

Lemma hover_shows_row_tooltip_witness :
  exists src n,
    cat_source (Sample.categoryColumn Sample.abc Undefined) = Val src /\
    index_js (col_values (Sample.valueColumn Sample.v312 Undefined)) 1 = Val n /\
    onMouseover (5, 7)%Z
      (datum (Sample.bar (Sample.point 1 "B" 1 "1" "palette-B" false) 1%Q)) =
      tooltip_show
        {| dataItems :=
             [ {| tip_displayName := displayName src ++ ":";
                  tip_value :=
                    index_js (cat_values (Sample.categoryColumn Sample.abc Undefined)) 1 |};
               {| tip_displayName :=
                    displayName (col_source (Sample.valueColumn Sample.v312 Undefined))
                    ++ ":";
                  tip_value := Val (number_toString (Sample.host true) n) |} ];
           identities :=
             [index_js (cat_values (Sample.categoryColumn Sample.abc Undefined)) 1];
           coordinates := (5, 7)%Z;
           isTouchEvent := false |} /\
    onMousemove (5, 7)%Z
      (datum (Sample.bar (Sample.point 1 "B" 1 "1" "palette-B" false) 1%Q)) =
      tooltip_move
        {| dataItems :=
             [ {| tip_displayName := displayName src ++ ":";
                  tip_value :=
                    index_js (cat_values (Sample.categoryColumn Sample.abc Undefined)) 1 |};
               {| tip_displayName :=
                    displayName (col_source (Sample.valueColumn Sample.v312 Undefined))
                    ++ ":";
                  tip_value := Val (number_toString (Sample.host true) n) |} ];
           identities :=
             [index_js (cat_values (Sample.categoryColumn Sample.abc Undefined)) 1];
           coordinates := (5, 7)%Z;
           isTouchEvent := false |} /\
    onMouseout
      (datum (Sample.bar (Sample.point 1 "B" 1 "1" "palette-B" false) 1%Q)) =
      tooltip_hide {| immediately := true; hide_isTouchEvent := false |}.
Proof.
  apply (hover_shows_row_tooltip (Sample.host true)
           (constructor (Sample.host true)) Sample.plain 0%nat
           Sample.scene1 3%nat
           (Sample.categoryColumn Sample.abc Undefined)
           (Sample.valueColumn Sample.v312 Undefined) 1%nat
           (Sample.bar (Sample.point 1 "B" 1 "1" "palette-B" false) 1%Q)
           (5, 7)%Z);
    reflexivity.
Defined.

(** Hovering B in the first render. *)
Example hover_B :
  onMouseover (5, 7)%Z (Sample.point 1 "B" 1 "1" "palette-B" false)
  = tooltip_show
      {| dataItems := [ {| tip_displayName := "Category:"; tip_value := Val "B" |};
                        {| tip_displayName := "Measure:"; tip_value := Val "1" |} ];
         identities := [Val "B"];
         coordinates := (5, 7)%Z;
         isTouchEvent := false |}.
Proof. reflexivity. Qed.

Lemma dataColor_instances_match_bars_witness :
  exists l,
    enumerateObjectInstances
      (Sample.updated true (constructor (Sample.host true)) Sample.overridden 0)
      "dataColor" 3 = Ok (l, 3%nat) /\
    length l
    = length (barGroup (Sample.updated true (constructor (Sample.host true))
                          Sample.overridden 0)) /\
    forall i r,
      barGroup (Sample.updated true (constructor (Sample.host true))
                  Sample.overridden 0) !! i = Some r ->
      exists color_i,
        attr_fill r = Val color_i /\
        l !! i = Some {| objectName := "dataColor";
                         inst_displayName := category (datum r);
                         properties := fill_property color_i;
                         selector :=
                           Val (withCategory (Sample.host true)
                                  (Sample.categoryColumn Sample.abc
                                     (Val [Undefined;
                                           Val {[ "dataColor" :=
                                                    {[ "fill" := Sample.red ]} ]}]))
                                  i) |}.
Proof.
  apply (dataColor_instances_match_bars (Sample.host true)
           (constructor (Sample.host true)) Sample.overridden 0%nat
           (Sample.updated true (constructor (Sample.host true)) Sample.overridden 0)
           3%nat _ (Sample.valueColumn Sample.v312 Undefined) 3%nat);
    reflexivity.
Defined.

(** The data colours listed after a render of the input with a red
    fill stored for B. *)
Example enumerate_dataColor_overridden :
  enumerateObjectInstances
    (Sample.updated true (constructor (Sample.host true)) Sample.overridden 0)
    "dataColor" 3
  = Ok ([ {| objectName := "dataColor"; inst_displayName := Val "A";
             properties := fill_property "palette-A"; selector := Val "A" |};
          {| objectName := "dataColor"; inst_displayName := Val "B";
             properties := fill_property "#FF0000"; selector := Val "B" |};
          {| objectName := "dataColor"; inst_displayName := Val "C";
             properties := fill_property "palette-C"; selector := Val "C" |} ],
        3%nat).
Proof. reflexivity. Qed.

Lemma enumerate_returns_after_update_witness :
  exists l,
    enumerateObjectInstances Sample.first "legend" 3 = Ok (l, 3%nat) /\
    ("legend" <> "xAxis" -> "legend" <> "dataColor" -> l = []).
Proof.
  apply (enumerate_returns_after_update (Sample.host true)
           (constructor (Sample.host true)) Sample.plain 0%nat Sample.first 3%nat
           "legend" 3%nat).
  reflexivity.
Defined.

Lemma xAxis_instance_matches_render_witness :
  exists show,
    enumerateObjectInstances
      (Sample.updated false (constructor (Sample.host false)) Sample.plain 0)
      "xAxis" 3
    = Ok ([ {| objectName := "xAxis";
               inst_displayName := Undefined;
               properties := show_property show;
               selector := Null |} ], 3%nat) /\
    text_visibility
      (xAxisGroup (Sample.updated false (constructor (Sample.host false))
                     Sample.plain 0))
    = Val (if show then "visible" else "hidden") /\
    transform
      (xAxisGroup (Sample.updated false (constructor (Sample.host false))
                     Sample.plain 0))
    = Val (0, height (viewport Sample.plain) - (if show then 30 else 10))%Z.
Proof.
  apply (xAxis_instance_matches_render (Sample.host false)
           (constructor (Sample.host false)) Sample.plain 0%nat _ 3%nat 3%nat).
  reflexivity.
Defined.

Lemma scene_follows_columns_witness :
  length (barGroup (Sample.updated true (constructor (Sample.host true))
                      Sample.moreValues 0))
  = length (col_values (Sample.valueColumn [Val (Num 1); Val (Num 2)] Undefined)) /\
  map (fun r => value (datum r))
      (barGroup (Sample.updated true (constructor (Sample.host true))
                   Sample.moreValues 0))
  = col_values (Sample.valueColumn [Val (Num 1); Val (Num 2)] Undefined) /\
  axis (xAxisGroup (Sample.updated true (constructor (Sample.host true))
                      Sample.moreValues 0)) =
    Val {| scale :=
             ordinal (cat_values (Sample.categoryColumn [Val "A"] Undefined) ++
                      replicate
                        (length (col_values
                                   (Sample.valueColumn [Val (Num 1); Val (Num 2)]
                                      Undefined))
                         - length (cat_values
                                     (Sample.categoryColumn [Val "A"] Undefined)))
                        Undefined)
                     (30, width (viewport Sample.moreValues))%Z (1 # 2)%Q;
           orient := "bottom"; tickSize := 1 |}.
Proof.
  apply (scene_follows_columns (Sample.host true)
           (constructor (Sample.host true)) Sample.moreValues 0%nat _ 2%nat
           (Sample.categoryColumn [Val "A"] Undefined)
           (Sample.valueColumn [Val (Num 1); Val (Num 2)] Undefined)
           {| displayName := "Category" |});
    reflexivity.
Defined.
